(** * The collector's global state (collector/global_state.py)

    A shallow embedding of the [GlobalState] class and of the Python values
    and library objects its methods touch, followed by the properties of the
    class that its design document states.

    The methods are modelled for one thread at a time: a method is a
    function from the state of the object to an outcome and the next state.
    The three [threading.Lock] objects are part of the state, so that what a
    [with] block does to its lock on each exit path can be stated. *)

From Stdlib Require Import ZArith List String Bool Lia PrimFloat.
From Equations Require Import Equations.
From Equations.Prop Require Import Logic.
Import ListNotations.

Open Scope Z_scope.
Set Warnings "-register-all".

(** ** Python values *)

(** The classes of the values below ([types.NoneType], [types.IntType] ...). *)
Inductive PyType : Type :=
| NoneType | BooleanType | IntType | LongType | FloatType
| StringType | UnicodeType | ListType | DictType.

(** The values a caller can pass to the setters and to [add_elapsed].  A
    Python 2 [int] and a [long] are different classes; a dictionary keeps its
    items as a list of pairs. *)
Inductive PyVal : Type :=
| PyNone
| PyBool (b : bool)
| PyInt (n : Z)
| PyLong (n : Z)
| PyFloat (x : float)
| PyStr (s : string)
| PyUnicode (s : string)
| PyList (items : list PyVal)
| PyDict (items : list (PyVal * PyVal)).

Definition type_of (v : PyVal) : PyType :=
  match v with
  | PyNone => NoneType
  | PyBool _ => BooleanType
  | PyInt _ => IntType
  | PyLong _ => LongType
  | PyFloat _ => FloatType
  | PyStr _ => StringType
  | PyUnicode _ => UnicodeType
  | PyList _ => ListType
  | PyDict _ => DictType
  end.

Definition PyType_eqb (a b : PyType) : bool :=
  match a, b with
  | NoneType, NoneType | BooleanType, BooleanType | IntType, IntType
  | LongType, LongType | FloatType, FloatType | StringType, StringType
  | UnicodeType, UnicodeType | ListType, ListType | DictType, DictType => true
  | _, _ => false
  end.

(** [issubclass]: every class is a subclass of itself, and [bool] is a
    subclass of [int]. *)
Definition issubclass (c base : PyType) : bool :=
  PyType_eqb c base ||
  match c, base with
  | BooleanType, IntType => true
  | _, _ => false
  end.

Definition isinstance (v : PyVal) (t : PyType) : bool :=
  issubclass (type_of v) t.

(** The truth value Python gives an object in [if] and [assert]. *)
Definition truthy (v : PyVal) : bool :=
  match v with
  | PyNone => false
  | PyBool b => b
  | PyInt n | PyLong n => negb (n =? 0)
  | PyFloat x => negb (PrimFloat.eqb x 0%float)
  | PyStr s | PyUnicode s => negb (String.eqb s EmptyString)
  | PyList [] => false
  | PyList (_ :: _) => true
  | PyDict [] => false
  | PyDict (_ :: _) => true
  end.

(** ** Exceptions and outcomes *)

Inductive PyExc : Type :=
| AssertionError
| AttributeError
| Raised (name : string).

(** How a call ends: it returns, it raises, or it waits for a lock that is
    held (a [threading.Lock] is not reentrant). *)
Inductive Outcome (A : Type) : Type :=
| Returns (a : A)
| Raises (e : PyExc)
| Blocks.
Arguments Returns {A} a.
Arguments Raises {A} e.
Arguments Blocks {A}.

(** ** Library objects *)

Inductive Lock : Type := Unlocked | Locked.

(** [simple_cache.SimpleCache] and [threading.BoundedSemaphore], as
    constructed: the arguments of the constructor. *)
Record SimpleCache : Type := mkSimpleCache {
  max_data_age_seconds : PyVal;
  data_cleanup_age_seconds : PyVal
}.

Record BoundedSemaphore : Type := mkBoundedSemaphore {
  initial_value : PyVal
}.

(** The injected logger.  Each of its methods returns or raises, as the
    logger decides from the arguments; the logger remembers the calls it
    received, each with the state of the lock of the caller at that time. *)
Inductive Level : Type :=
| Debug | Info | Warning | Error | Fatal | Exception.

Record SinkCall : Type := mkSinkCall {
  call_level : Level;
  call_args : list PyVal;
  call_lock : Lock
}.

Record Logger : Type := mkLogger {
  behaviour : Level -> list PyVal -> option PyExc;
  received : list SinkCall
}.

(** ** The elapsed time queue *)

Record ElapsedRecord : Type := mkElapsedRecord {
  start_time : PyVal;
  what : PyVal;
  thread_identifier : Z;
  elapsed_seconds : PyVal
}.

(** [Queue.Queue()], a FIFO queue without a size limit: oldest item first. *)
Definition Queue : Type := list ElapsedRecord.

Inductive QueueEmpty : Type := Empty.

Definition qsize (q : Queue) : Z := Z.of_nat (List.length q).

Definition empty (q : Queue) : bool :=
  match q with [] => true | _ :: _ => false end.

(** [get(block=False)]: the oldest item and the rest, or [Queue.Empty]. *)
Definition get_nowait (q : Queue) : QueueEmpty + ElapsedRecord * Queue :=
  match q with
  | [] => inl Empty
  | r :: q' => inr (r, q')
  end.

Definition put (q : Queue) (r : ElapsedRecord) : Queue := q ++ [r].

(** ** What the module imports

    The modules [constants] and [utilities] and the class [random.Random]
    are used by [GlobalState] and defined elsewhere; they are taken as
    given.  [valid_string] returns a Python value, which [assert] tests for
    truth; [randint a b] draws from a generator and hands back the generator
    in its next state. *)
Class Imports : Type := {
  MAX_CACHED_DATA_AGE_SECONDS : PyVal;
  CACHE_DATA_CLEANUP_AGE_SECONDS : PyVal;
  MAX_CONCURRENT_COMPUTE_GRAPH : PyVal;
  MAX_ELAPSED_QUEUE_SIZE : Z;
  valid_string : PyVal -> PyVal;
  Random : Type;
  randint : Z -> Z -> Random -> Z * Random
}.

Section GlobalState.

Context {imports : Imports}.

(** ** The state of a [GlobalState] object *)

Record GlobalState : Type := mkGlobalState {
  _testing : PyVal;
  _num_workers : PyVal;
  _logger_lock : Lock;
  _logger : option Logger;
  _random_lock : Lock;
  _random_generator : Random;
  _sequence_number : Z;
  _nodes_cache : option SimpleCache;
  _pods_cache : option SimpleCache;
  _services_cache : option SimpleCache;
  _rcontrollers_cache : option SimpleCache;
  _bounded_semaphore : option BoundedSemaphore;
  _elapsed_queue : Queue;
  _relations_lock : Lock;
  _relations_to_timestamps : PyVal
}.

(** Assignments to the attributes. *)
Definition set__testing (v : PyVal) (s : GlobalState) : GlobalState :=
  mkGlobalState v (_num_workers s) (_logger_lock s) (_logger s)
    (_random_lock s) (_random_generator s) (_sequence_number s)
    (_nodes_cache s) (_pods_cache s) (_services_cache s)
    (_rcontrollers_cache s) (_bounded_semaphore s) (_elapsed_queue s)
    (_relations_lock s) (_relations_to_timestamps s).

Definition set__num_workers (v : PyVal) (s : GlobalState) : GlobalState :=
  mkGlobalState (_testing s) v (_logger_lock s) (_logger s)
    (_random_lock s) (_random_generator s) (_sequence_number s)
    (_nodes_cache s) (_pods_cache s) (_services_cache s)
    (_rcontrollers_cache s) (_bounded_semaphore s) (_elapsed_queue s)
    (_relations_lock s) (_relations_to_timestamps s).

Definition set__logger_lock (l : Lock) (s : GlobalState) : GlobalState :=
  mkGlobalState (_testing s) (_num_workers s) l (_logger s)
    (_random_lock s) (_random_generator s) (_sequence_number s)
    (_nodes_cache s) (_pods_cache s) (_services_cache s)
    (_rcontrollers_cache s) (_bounded_semaphore s) (_elapsed_queue s)
    (_relations_lock s) (_relations_to_timestamps s).

Definition set__logger (l : option Logger) (s : GlobalState) : GlobalState :=
  mkGlobalState (_testing s) (_num_workers s) (_logger_lock s) l
    (_random_lock s) (_random_generator s) (_sequence_number s)
    (_nodes_cache s) (_pods_cache s) (_services_cache s)
    (_rcontrollers_cache s) (_bounded_semaphore s) (_elapsed_queue s)
    (_relations_lock s) (_relations_to_timestamps s).

Definition set__random_lock (l : Lock) (s : GlobalState) : GlobalState :=
  mkGlobalState (_testing s) (_num_workers s) (_logger_lock s) (_logger s)
    l (_random_generator s) (_sequence_number s)
    (_nodes_cache s) (_pods_cache s) (_services_cache s)
    (_rcontrollers_cache s) (_bounded_semaphore s) (_elapsed_queue s)
    (_relations_lock s) (_relations_to_timestamps s).

Definition set__random_generator (g : Random) (s : GlobalState)
  : GlobalState :=
  mkGlobalState (_testing s) (_num_workers s) (_logger_lock s) (_logger s)
    (_random_lock s) g (_sequence_number s)
    (_nodes_cache s) (_pods_cache s) (_services_cache s)
    (_rcontrollers_cache s) (_bounded_semaphore s) (_elapsed_queue s)
    (_relations_lock s) (_relations_to_timestamps s).

Definition set__sequence_number (n : Z) (s : GlobalState) : GlobalState :=
  mkGlobalState (_testing s) (_num_workers s) (_logger_lock s) (_logger s)
    (_random_lock s) (_random_generator s) n
    (_nodes_cache s) (_pods_cache s) (_services_cache s)
    (_rcontrollers_cache s) (_bounded_semaphore s) (_elapsed_queue s)
    (_relations_lock s) (_relations_to_timestamps s).

Definition set__nodes_cache (c : option SimpleCache) (s : GlobalState)
  : GlobalState :=
  mkGlobalState (_testing s) (_num_workers s) (_logger_lock s) (_logger s)
    (_random_lock s) (_random_generator s) (_sequence_number s)
    c (_pods_cache s) (_services_cache s)
    (_rcontrollers_cache s) (_bounded_semaphore s) (_elapsed_queue s)
    (_relations_lock s) (_relations_to_timestamps s).

Definition set__pods_cache (c : option SimpleCache) (s : GlobalState)
  : GlobalState :=
  mkGlobalState (_testing s) (_num_workers s) (_logger_lock s) (_logger s)
    (_random_lock s) (_random_generator s) (_sequence_number s)
    (_nodes_cache s) c (_services_cache s)
    (_rcontrollers_cache s) (_bounded_semaphore s) (_elapsed_queue s)
    (_relations_lock s) (_relations_to_timestamps s).

Definition set__services_cache (c : option SimpleCache) (s : GlobalState)
  : GlobalState :=
  mkGlobalState (_testing s) (_num_workers s) (_logger_lock s) (_logger s)
    (_random_lock s) (_random_generator s) (_sequence_number s)
    (_nodes_cache s) (_pods_cache s) c
    (_rcontrollers_cache s) (_bounded_semaphore s) (_elapsed_queue s)
    (_relations_lock s) (_relations_to_timestamps s).

Definition set__rcontrollers_cache (c : option SimpleCache) (s : GlobalState)
  : GlobalState :=
  mkGlobalState (_testing s) (_num_workers s) (_logger_lock s) (_logger s)
    (_random_lock s) (_random_generator s) (_sequence_number s)
    (_nodes_cache s) (_pods_cache s) (_services_cache s)
    c (_bounded_semaphore s) (_elapsed_queue s)
    (_relations_lock s) (_relations_to_timestamps s).

Definition set__bounded_semaphore (b : option BoundedSemaphore)
  (s : GlobalState) : GlobalState :=
  mkGlobalState (_testing s) (_num_workers s) (_logger_lock s) (_logger s)
    (_random_lock s) (_random_generator s) (_sequence_number s)
    (_nodes_cache s) (_pods_cache s) (_services_cache s)
    (_rcontrollers_cache s) b (_elapsed_queue s)
    (_relations_lock s) (_relations_to_timestamps s).

Definition set__elapsed_queue (q : Queue) (s : GlobalState) : GlobalState :=
  mkGlobalState (_testing s) (_num_workers s) (_logger_lock s) (_logger s)
    (_random_lock s) (_random_generator s) (_sequence_number s)
    (_nodes_cache s) (_pods_cache s) (_services_cache s)
    (_rcontrollers_cache s) (_bounded_semaphore s) q
    (_relations_lock s) (_relations_to_timestamps s).

Definition set__relations_lock (l : Lock) (s : GlobalState) : GlobalState :=
  mkGlobalState (_testing s) (_num_workers s) (_logger_lock s) (_logger s)
    (_random_lock s) (_random_generator s) (_sequence_number s)
    (_nodes_cache s) (_pods_cache s) (_services_cache s)
    (_rcontrollers_cache s) (_bounded_semaphore s) (_elapsed_queue s)
    l (_relations_to_timestamps s).

Definition set__relations_to_timestamps (v : PyVal) (s : GlobalState)
  : GlobalState :=
  mkGlobalState (_testing s) (_num_workers s) (_logger_lock s) (_logger s)
    (_random_lock s) (_random_generator s) (_sequence_number s)
    (_nodes_cache s) (_pods_cache s) (_services_cache s)
    (_rcontrollers_cache s) (_bounded_semaphore s) (_elapsed_queue s)
    (_relations_lock s) v.

(** ** Methods as state transformers *)

Definition Method (A : Type) : Type := GlobalState -> Outcome A * GlobalState.

Definition ret {A : Type} (a : A) : Method A := fun s => (Returns a, s).

Definition raise {A : Type} (e : PyExc) : Method A := fun s => (Raises e, s).

Definition bind {A B : Type} (m : Method A) (k : A -> Method B) : Method B :=
  fun s =>
    match m s with
    | (Returns a, s') => k a s'
    | (Raises e, s') => (Raises e, s')
    | (Blocks, s') => (Blocks, s')
    end.

Definition modify (f : GlobalState -> GlobalState) : Method unit :=
  fun s => (Returns tt, f s).

Definition assert (cond : bool) : Method unit :=
  if cond then ret tt else raise AssertionError.

(** [with lock: body].  Entering waits while the lock is held; once
    entered, the lock is released when the body returns and when it
    raises. *)
Definition with_lock {A : Type}
  (lock : GlobalState -> Lock)
  (set_lock : Lock -> GlobalState -> GlobalState)
  (body : Method A) : Method A :=
  fun s =>
    match lock s with
    | Locked => (Blocks, s)
    | Unlocked =>
        let (r, s') := body (set_lock Locked s) in
        (r, set_lock Unlocked s')
    end.

Notation "x <- m ;; k" := (bind m (fun x => k))
  (at level 61, m at next level, right associativity).
Notation "m ;;; k" := (bind m (fun _ => k))
  (at level 61, right associativity).

(** ** The methods of [GlobalState] *)

(** [__init__].  The generator arrives seeded from the system time, so its
    first state is an input. *)
Definition __init__ (seeded : Random) : GlobalState :=
  {| _testing := PyBool false;
     _num_workers := PyInt 0;
     _logger_lock := Unlocked;
     _logger := None;
     _random_lock := Unlocked;
     _random_generator := seeded;
     _sequence_number := 0;
     _nodes_cache := None;
     _pods_cache := None;
     _services_cache := None;
     _rcontrollers_cache := None;
     _bounded_semaphore := None;
     _elapsed_queue := [];
     _relations_lock := Unlocked;
     _relations_to_timestamps := PyDict [] |}.

Definition new_cache : SimpleCache :=
  mkSimpleCache MAX_CACHED_DATA_AGE_SECONDS CACHE_DATA_CLEANUP_AGE_SECONDS.

Definition init_caches_and_synchronization : Method unit :=
  modify (set__nodes_cache (Some new_cache)) ;;;
  modify (set__pods_cache (Some new_cache)) ;;;
  modify (set__services_cache (Some new_cache)) ;;;
  modify (set__rcontrollers_cache (Some new_cache)) ;;;
  modify (set__bounded_semaphore
            (Some (mkBoundedSemaphore MAX_CONCURRENT_COMPUTE_GRAPH))).

(** The accessors return the attribute: an object, or [None]. *)
Definition get_nodes_cache : Method (option SimpleCache) :=
  fun s => ret (_nodes_cache s) s.

Definition get_pods_cache : Method (option SimpleCache) :=
  fun s => ret (_pods_cache s) s.

Definition get_services_cache : Method (option SimpleCache) :=
  fun s => ret (_services_cache s) s.

Definition get_rcontrollers_cache : Method (option SimpleCache) :=
  fun s => ret (_rcontrollers_cache s) s.

Definition get_bounded_semaphore : Method (option BoundedSemaphore) :=
  fun s => ret (_bounded_semaphore s) s.

Definition set_testing (testing : PyVal) : Method unit :=
  modify (set__testing testing).

Definition get_testing : Method PyVal :=
  fun s => ret (_testing s) s.

Definition set_num_workers (workers : PyVal) : Method unit :=
  assert (isinstance workers IntType) ;;;
  modify (set__num_workers workers).

Definition get_num_workers : Method PyVal :=
  fun s => ret (_num_workers s) s.

(** The sequence number is a Python integer, which does not overflow. *)
Definition get_random_priority : Method Z :=
  with_lock _random_lock set__random_lock
    (fun s =>
       if truthy (_testing s) then
         (modify (set__sequence_number (_sequence_number s + 1)) ;;;
          fun s' => ret (_sequence_number s') s') s
       else
         let (r, g) := randint 0 1000 (_random_generator s) in
         (modify (set__random_generator g) ;;; ret r) s).

Definition set_logger (logger : option Logger) : Method unit :=
  with_lock _logger_lock set__logger_lock (modify (set__logger logger)).

(** The call of a method of [self._logger] on [args]: looking the method up
    on [None] raises
    [AttributeError]; otherwise the logger receives the arguments and
    returns or raises. *)
Definition call_logger (level : Level) (args : list PyVal) : Method unit :=
  fun s =>
    match _logger s with
    | None => raise AttributeError s
    | Some l =>
        let l' := mkLogger (behaviour l)
                    (received l ++ [mkSinkCall level args (_logger_lock s)]) in
        match behaviour l level args with
        | None => ret tt (set__logger (Some l') s)
        | Some e => raise e (set__logger (Some l') s)
        end
    end.

Definition logger_debug (args : list PyVal) : Method unit :=
  with_lock _logger_lock set__logger_lock (call_logger Debug args).

Definition logger_info (args : list PyVal) : Method unit :=
  with_lock _logger_lock set__logger_lock (call_logger Info args).

Definition logger_warning (args : list PyVal) : Method unit :=
  with_lock _logger_lock set__logger_lock (call_logger Warning args).

Definition logger_error (args : list PyVal) : Method unit :=
  with_lock _logger_lock set__logger_lock (call_logger Error args).

Definition logger_fatal (args : list PyVal) : Method unit :=
  with_lock _logger_lock set__logger_lock (call_logger Fatal args).

Definition logger_exception (args : list PyVal) : Method unit :=
  with_lock _logger_lock set__logger_lock (call_logger Exception args).

Definition get_relations_to_timestamps : Method PyVal :=
  with_lock _relations_lock set__relations_lock
    (fun s => ret (_relations_to_timestamps s) s).

Definition set_relations_to_timestamps (v : PyVal) : Method unit :=
  assert (isinstance v DictType) ;;;
  with_lock _relations_lock set__relations_lock
    (modify (set__relations_to_timestamps v)).

(** The loop at the head of [add_elapsed]:
    [while qsize() >= MAX_ELAPSED_QUEUE_SIZE: try: get(block=False)
     except Queue.Empty: break]. *)
Equations? discard_loop (q : Queue) : Queue by wf (List.length q) lt :=
  discard_loop q with inspect (qsize q >=? MAX_ELAPSED_QUEUE_SIZE) := {
    | exist _ false _ := q;
    | exist _ true _ with inspect (get_nowait q) := {
        | exist _ (inl Empty) _ := q;
        | exist _ (inr (_, q')) Hget := discard_loop q' } }.
Proof.
  destruct q as [|x q0]; simpl in Hget; [discriminate|].
  injection Hget as _ <-. simpl. lia.
Qed.

(** [add_elapsed], called by the thread whose identifier is [ident]
    (the value of [thread.get_ident()]). *)
Definition add_elapsed (ident : Z)
  (start_time url_or_fname elapsed_seconds : PyVal) : Method unit :=
  assert (isinstance start_time FloatType) ;;;
  assert (truthy (valid_string url_or_fname)) ;;;
  assert (isinstance elapsed_seconds FloatType) ;;;
  modify (fun s => set__elapsed_queue (discard_loop (_elapsed_queue s)) s) ;;;
  modify (fun s =>
            set__elapsed_queue
              (put (_elapsed_queue s)
                 (mkElapsedRecord start_time url_or_fname ident
                    elapsed_seconds)) s).

(** The loop of [get_elapsed]:
    [while not empty(): try: result.append(get(block=False))
     except Queue.Empty: break]. *)
Equations? drain_loop (q : Queue) (result : list ElapsedRecord)
  : list ElapsedRecord * Queue by wf (List.length q) lt :=
  drain_loop q result with inspect (empty q) := {
    | exist _ true _ := (result, q);
    | exist _ false _ with inspect (get_nowait q) := {
        | exist _ (inl Empty) _ := (result, q);
        | exist _ (inr (r, q')) Hget := drain_loop q' (result ++ [r]) } }.
Proof.
  destruct q as [|x q0]; simpl in Hget; [discriminate|].
  injection Hget as _ <-. simpl. lia.
Qed.

Definition get_elapsed : Method (list ElapsedRecord) :=
  fun s =>
    let (result, q) := drain_loop (_elapsed_queue s) [] in
    ret result (set__elapsed_queue q s).

(** ** Calls and runs *)

(** The six logging methods, by level. *)
Definition logger_method (level : Level) : list PyVal -> Method unit :=
  match level with
  | Debug => logger_debug
  | Info => logger_info
  | Warning => logger_warning
  | Error => logger_error
  | Fatal => logger_fatal
  | Exception => logger_exception
  end.

(** A call of a public method of the object, with its arguments. *)
Inductive Call : Type :=
| Call_init_caches_and_synchronization
| Call_get_nodes_cache
| Call_get_pods_cache
| Call_get_services_cache
| Call_get_rcontrollers_cache
| Call_get_bounded_semaphore
| Call_set_testing (testing : PyVal)
| Call_get_testing
| Call_set_num_workers (workers : PyVal)
| Call_get_num_workers
| Call_get_random_priority
| Call_set_logger (logger : option Logger)
| Call_logger (level : Level) (args : list PyVal)
| Call_get_relations_to_timestamps
| Call_set_relations_to_timestamps (v : PyVal)
| Call_add_elapsed (ident : Z) (start_time url_or_fname elapsed_seconds : PyVal)
| Call_get_elapsed.

(** The state a call leaves behind, however the call ends. *)
Definition step (c : Call) (s : GlobalState) : GlobalState :=
  match c with
  | Call_init_caches_and_synchronization =>
      snd (init_caches_and_synchronization s)
  | Call_get_nodes_cache => snd (get_nodes_cache s)
  | Call_get_pods_cache => snd (get_pods_cache s)
  | Call_get_services_cache => snd (get_services_cache s)
  | Call_get_rcontrollers_cache => snd (get_rcontrollers_cache s)
  | Call_get_bounded_semaphore => snd (get_bounded_semaphore s)
  | Call_set_testing testing => snd (set_testing testing s)
  | Call_get_testing => snd (get_testing s)
  | Call_set_num_workers workers => snd (set_num_workers workers s)
  | Call_get_num_workers => snd (get_num_workers s)
  | Call_get_random_priority => snd (get_random_priority s)
  | Call_set_logger logger => snd (set_logger logger s)
  | Call_logger level args => snd (logger_method level args s)
  | Call_get_relations_to_timestamps => snd (get_relations_to_timestamps s)
  | Call_set_relations_to_timestamps v =>
      snd (set_relations_to_timestamps v s)
  | Call_add_elapsed ident st w el => snd (add_elapsed ident st w el s)
  | Call_get_elapsed => snd (get_elapsed s)
  end.

Definition run (cs : list Call) (s : GlobalState) : GlobalState :=
  fold_left (fun st c => step c st) cs s.

Definition is_init (c : Call) : bool :=
  match c with
  | Call_init_caches_and_synchronization => true
  | _ => false
  end.

Definition is_set_testing (c : Call) : bool :=
  match c with
  | Call_set_testing _ => true
  | _ => false
  end.

(** The two ways [get_random_priority] computes its result. *)
Inductive Mode : Type := Sequential | Randomized.

Definition mode (s : GlobalState) : Mode :=
  if truthy (_testing s) then Sequential else Randomized.

(** [n] calls of a method in a row, with their results in order; the run
    stops at the first call that does not return. *)
Fixpoint repeat_call {A : Type} (n : nat) (m : Method A) : Method (list A) :=
  match n with
  | O => ret []
  | S n' => a <- m ;; rest <- repeat_call n' m ;; ret (a :: rest)
  end.

(** The arguments of one call of [add_elapsed] and the thread that makes
    it. *)
Record ElapsedArgs : Type := mkElapsedArgs {
  arg_ident : Z;
  arg_start_time : PyVal;
  arg_url_or_fname : PyVal;
  arg_elapsed_seconds : PyVal
}.

(** The three assertions of [add_elapsed] hold. *)
Definition valid_args (a : ElapsedArgs) : bool :=
  isinstance (arg_start_time a) FloatType
  && truthy (valid_string (arg_url_or_fname a))
  && isinstance (arg_elapsed_seconds a) FloatType.

Definition record_of (a : ElapsedArgs) : ElapsedRecord :=
  mkElapsedRecord (arg_start_time a) (arg_url_or_fname a) (arg_ident a)
    (arg_elapsed_seconds a).

Definition add_elapsed_args (a : ElapsedArgs) : Method unit :=
  add_elapsed (arg_ident a) (arg_start_time a) (arg_url_or_fname a)
    (arg_elapsed_seconds a).

(** A sequence of [add_elapsed] calls, stopping at the first that does not
    return. *)
Fixpoint add_elapsed_all (l : list ElapsedArgs) : Method unit :=
  match l with
  | [] => ret tt
  | a :: l' => add_elapsed_args a ;;; add_elapsed_all l'
  end.

(** Between calls no lock is held. *)
Definition locks_free (s : GlobalState) : Prop :=
  _logger_lock s = Unlocked /\ _random_lock s = Unlocked /\
  _relations_lock s = Unlocked.

(** The last [n] items of a list. *)
Definition most_recent {A : Type} (n : nat) (l : list A) : list A :=
  skipn (List.length l - n) l.

End GlobalState.

Arguments GlobalState : clear implicits.
Arguments Method : clear implicits.

(** ** Observations on calls and runs *)

Section Observations.

Context {imports : Imports}.

Definition is_blocks {A : Type} (o : Outcome A) : bool :=
  match o with
  | Blocks => true
  | _ => false
  end.

(** The call waits for a lock. *)
Definition call_blocks (c : Call) (s : GlobalState imports) : bool :=
  match c with
  | Call_init_caches_and_synchronization =>
      is_blocks (fst (init_caches_and_synchronization s))
  | Call_get_nodes_cache => is_blocks (fst (get_nodes_cache s))
  | Call_get_pods_cache => is_blocks (fst (get_pods_cache s))
  | Call_get_services_cache => is_blocks (fst (get_services_cache s))
  | Call_get_rcontrollers_cache => is_blocks (fst (get_rcontrollers_cache s))
  | Call_get_bounded_semaphore => is_blocks (fst (get_bounded_semaphore s))
  | Call_set_testing testing => is_blocks (fst (set_testing testing s))
  | Call_get_testing => is_blocks (fst (get_testing s))
  | Call_set_num_workers workers => is_blocks (fst (set_num_workers workers s))
  | Call_get_num_workers => is_blocks (fst (get_num_workers s))
  | Call_get_random_priority => is_blocks (fst (get_random_priority s))
  | Call_set_logger logger => is_blocks (fst (set_logger logger s))
  | Call_logger level args => is_blocks (fst (logger_method level args s))
  | Call_get_relations_to_timestamps =>
      is_blocks (fst (get_relations_to_timestamps s))
  | Call_set_relations_to_timestamps v =>
      is_blocks (fst (set_relations_to_timestamps v s))
  | Call_add_elapsed ident st w el =>
      is_blocks (fst (add_elapsed ident st w el s))
  | Call_get_elapsed => is_blocks (fst (get_elapsed s))
  end.

Definition is_set_num_workers (c : Call) : bool :=
  match c with
  | Call_set_num_workers _ => true
  | _ => false
  end.

Definition is_set_relations_to_timestamps (c : Call) : bool :=
  match c with
  | Call_set_relations_to_timestamps _ => true
  | _ => false
  end.

Definition is_get_random_priority (c : Call) : bool :=
  match c with
  | Call_get_random_priority => true
  | _ => false
  end.

Definition is_set_logger (c : Call) : bool :=
  match c with
  | Call_set_logger _ => true
  | _ => false
  end.

(** The calls that only read: the accessors and the getters. *)
Definition is_getter (c : Call) : bool :=
  match c with
  | Call_get_nodes_cache | Call_get_pods_cache | Call_get_services_cache
  | Call_get_rcontrollers_cache | Call_get_bounded_semaphore
  | Call_get_testing | Call_get_num_workers
  | Call_get_relations_to_timestamps => true
  | _ => false
  end.

(** Logging calls, one per pair of a level and arguments, and what a logger
    notes of them when each arrives with the lock held. *)
Definition logging_calls (l : list (Level * list PyVal)) : list Call :=
  map (fun p => Call_logger (fst p) (snd p)) l.

Definition noted_calls (l : list (Level * list PyVal)) : list SinkCall :=
  map (fun p => mkSinkCall (fst p) (snd p) Locked) l.

(** The five attributes that [init_caches_and_synchronization] assigns hold
    objects. *)
Definition initialized (s : GlobalState imports) : Prop :=
  _nodes_cache s <> None /\ _pods_cache s <> None /\
  _services_cache s <> None /\ _rcontrollers_cache s <> None /\
  _bounded_semaphore s <> None.

End Observations.

(** ** An instance for examples *)

(** Modelled from the spec: [utilities.valid_string] is not among the
    sources.  The label of a record is a string that names a URL or a file;
    the function is taken to give back its argument when that is a string
    ([str] or [unicode]) and [False] otherwise, so that the assertion holds
    on a string that is not empty. *)
Definition example_valid_string (v : PyVal) : PyVal :=
  match v with
  | PyStr _ | PyUnicode _ => v
  | _ => PyBool false
  end.

(** A linear congruential generator in the place of [random.Random]:
    [randint a b] returns [a] plus the state reduced modulo [b - a + 1]. *)
Definition example_randint (a b g : Z) : Z * Z :=
  (a + g mod (b - a + 1), (1103515245 * g + 12345) mod 2147483648).

(** Small constants: two records fit in the queue. *)
Definition example_imports : Imports :=
  {| MAX_CACHED_DATA_AGE_SECONDS := PyInt 10;
     CACHE_DATA_CLEANUP_AGE_SECONDS := PyInt 3600;
     MAX_CONCURRENT_COMPUTE_GRAPH := PyInt 10;
     MAX_ELAPSED_QUEUE_SIZE := 2;
     valid_string := example_valid_string;
     Random := Z;
     randint := example_randint |}.

Definition example_state : GlobalState example_imports :=
  @__init__ example_imports 42.

Open Scope string_scope.
Open Scope list_scope.

Definition example_args (ident : Z) (label : string) : ElapsedArgs :=
  mkElapsedArgs ident (PyFloat 1.5%float) (PyStr label) (PyFloat 0.25%float).

(** Three calls of [add_elapsed] by three threads, all with arguments that
    pass the assertions. *)
Definition example_three_calls : list ElapsedArgs :=
  [example_args 1 "a"; example_args 2 "b"; example_args 3 "c"].

(** A logger whose [error] method raises and whose other methods return. *)
Definition example_logger : Logger :=
  mkLogger
    (fun level _ =>
       match level with
       | Error => Some (Raised "IOError")
       | _ => None
       end)
    [].

Definition example_logging_state : GlobalState example_imports :=
  snd (set_logger (Some example_logger) example_state).

Definition example_mapping : PyVal :=
  PyDict [(PyStr "pod-1", PyFloat 1.5%float)].

(** The same instance with a limit of zero on the queue. *)
Definition example_imports_no_room : Imports :=
  {| MAX_CACHED_DATA_AGE_SECONDS := PyInt 10;
     CACHE_DATA_CLEANUP_AGE_SECONDS := PyInt 3600;
     MAX_CONCURRENT_COMPUTE_GRAPH := PyInt 10;
     MAX_ELAPSED_QUEUE_SIZE := 0;
     valid_string := example_valid_string;
     Random := Z;
     randint := example_randint |}.

(** A run that mixes calls of every kind. *)
Definition example_run : list Call :=
  [Call_set_logger (Some example_logger);
   Call_logger Error [PyStr "failed"];
   Call_add_elapsed 1 (PyFloat 1.5%float) (PyStr "a") (PyFloat 0.25%float);
   Call_add_elapsed 2 (PyFloat 1.5%float) (PyStr "b") (PyFloat 0.25%float);
   Call_get_random_priority;
   Call_add_elapsed 3 (PyFloat 1.5%float) (PyStr "c") (PyFloat 0.25%float);
   Call_set_testing (PyBool true);
   Call_get_random_priority;
   Call_set_num_workers (PyStr "four");
   Call_get_relations_to_timestamps].

(** Logging calls of which the second raises. *)
Definition example_messages : list (Level * list PyVal) :=
  [(Info, [PyStr "start"]); (Error, [PyStr "failed"; PyInt 3]);
   (Debug, [])].

(** * Properties *)

Section Properties.

Context {imports : Imports}.

Local Abbreviation State := (GlobalState imports).

(** ** The two loops *)

Lemma most_recent_nil {A : Type} (n : nat) : most_recent n (@nil A) = [].
Proof. reflexivity. Qed.

Lemma most_recent_all {A : Type} (n : nat) (l : list A) :
  (List.length l <= n)%nat -> most_recent n l = l.
Proof.
  intros H. unfold most_recent.
  replace (List.length l - n)%nat with O by lia. reflexivity.
Qed.

Lemma most_recent_cons {A : Type} (n : nat) (x : A) (l : list A) :
  (n <= List.length l)%nat -> most_recent n (x :: l) = most_recent n l.
Proof.
  intros H. unfold most_recent. simpl List.length.
  replace (S (List.length l) - n)%nat with (S (List.length l - n)) by lia.
  reflexivity.
Qed.

Lemma most_recent_length {A : Type} (n : nat) (l : list A) :
  List.length (most_recent n l) = Nat.min n (List.length l).
Proof. unfold most_recent. rewrite length_skipn. lia. Qed.

Lemma most_recent_snoc {A : Type} (n : nat) (l : list A) (x : A) :
  most_recent (S n) (l ++ [x]) = most_recent n l ++ [x].
Proof.
  unfold most_recent. rewrite length_app. simpl List.length.
  replace (List.length l + 1 - S n)%nat with (List.length l - n)%nat by lia.
  rewrite skipn_app.
  replace (List.length l - n - List.length l)%nat with O by lia.
  reflexivity.
Qed.

Lemma most_recent_app {A : Type} (n : nat) (l l' : list A) :
  most_recent n (most_recent n l ++ l') = most_recent n (l ++ l').
Proof.
  unfold most_recent at 1 3. rewrite !length_app, most_recent_length.
  rewrite !skipn_app, most_recent_length.
  unfold most_recent. rewrite skipn_skipn. f_equal.
  - f_equal. lia.
  - f_equal. lia.
Qed.

Lemma geb_true (a b : Z) : (a >=? b) = true -> b <= a.
Proof. rewrite Z.geb_leb. apply Z.leb_le. Qed.

Lemma geb_false (a b : Z) : (a >=? b) = false -> a < b.
Proof. rewrite Z.geb_leb. apply Z.leb_gt. Qed.

Ltac geb_to_order :=
  match goal with
  | H : (_ >=? _) = true |- _ => pose proof (geb_true _ _ H)
  | H : (_ >=? _) = false |- _ => pose proof (geb_false _ _ H)
  end.

(** The loop of [add_elapsed] keeps the newest records, one fewer than the
    limit (none when the limit is not positive). *)
Lemma discard_loop_most_recent (q : Queue) :
  discard_loop q = most_recent (Z.to_nat (MAX_ELAPSED_QUEUE_SIZE - 1)) q.
Proof.
  funelim (discard_loop q).
  - geb_to_order. symmetry. apply most_recent_all. unfold qsize in *. lia.
  - destruct q; [reflexivity | discriminate].
  - destruct q as [|x q0]; [discriminate|].
    simpl in Hget. injection Hget as _ <-. geb_to_order.
    rewrite most_recent_cons; [assumption|].
    unfold qsize in *. simpl List.length in *. lia.
Qed.

(** The loop of [get_elapsed] moves the whole queue, in order, behind the
    records it already holds. *)
Lemma drain_loop_all (q : Queue) (result : list ElapsedRecord) :
  drain_loop q result = (result ++ q, []).
Proof.
  funelim (drain_loop q result).
  - destruct q; [|discriminate]. now rewrite app_nil_r.
  - destruct q; discriminate.
  - destruct q as [|x q0]; [discriminate|].
    simpl in Hget. injection Hget as <- <-.
    rewrite H. now rewrite <- app_assoc.
Qed.

(** ** The elapsed time queue *)

Lemma capacity_to_nat :
  1 <= MAX_ELAPSED_QUEUE_SIZE ->
  Z.to_nat MAX_ELAPSED_QUEUE_SIZE = S (Z.to_nat (MAX_ELAPSED_QUEUE_SIZE - 1)).
Proof. lia. Qed.

(** One call whose assertions hold: the records beyond the limit leave, the
    new record comes last, and nothing else in the state changes. *)
Lemma add_elapsed_args_valid (a : ElapsedArgs) (s : State) :
  valid_args a = true ->
  add_elapsed_args a s =
  (Returns tt,
   set__elapsed_queue
     (most_recent (Z.to_nat (MAX_ELAPSED_QUEUE_SIZE - 1)) (_elapsed_queue s)
      ++ [record_of a]) s).
Proof.
  unfold valid_args, add_elapsed_args, add_elapsed. intros H.
  apply andb_prop in H as [H H3]. apply andb_prop in H as [H1 H2].
  unfold bind, assert. rewrite H1, H2, H3. simpl.
  rewrite discard_loop_most_recent. reflexivity.
Qed.

Lemma add_elapsed_args_invalid (a : ElapsedArgs) (s : State) :
  valid_args a = false ->
  add_elapsed_args a s = (Raises AssertionError, s).
Proof.
  unfold valid_args, add_elapsed_args, add_elapsed, bind, assert. intros H.
  destruct (isinstance (arg_start_time a) FloatType); [|reflexivity].
  destruct (truthy (valid_string (arg_url_or_fname a))); [|reflexivity].
  destruct (isinstance (arg_elapsed_seconds a) FloatType);
    [discriminate | reflexivity].
Qed.

Lemma add_elapsed_args_bounded (a : ElapsedArgs) (s : State) :
  1 <= MAX_ELAPSED_QUEUE_SIZE ->
  valid_args a = true ->
  add_elapsed_args a s =
  (Returns tt,
   set__elapsed_queue
     (most_recent (Z.to_nat MAX_ELAPSED_QUEUE_SIZE)
        (_elapsed_queue s ++ [record_of a])) s).
Proof.
  intros Hcap Hv. rewrite (add_elapsed_args_valid a s Hv).
  rewrite (capacity_to_nat Hcap), most_recent_snoc. reflexivity.
Qed.

Lemma add_elapsed_all_bounded (l : list ElapsedArgs) :
  1 <= MAX_ELAPSED_QUEUE_SIZE ->
  forallb valid_args l = true ->
  l <> [] ->
  forall s : State,
    add_elapsed_all l s =
    (Returns tt,
     set__elapsed_queue
       (most_recent (Z.to_nat MAX_ELAPSED_QUEUE_SIZE)
          (_elapsed_queue s ++ map record_of l)) s).
Proof.
  intros Hcap. induction l as [|a l IH]; intros Hv Hne s; [congruence|].
  simpl in Hv. apply andb_prop in Hv as [Ha Hl].
  simpl add_elapsed_all. unfold bind.
  rewrite (add_elapsed_args_bounded a s Hcap Ha).
  destruct l as [|b l'].
  - reflexivity.
  - rewrite (IH Hl ltac:(discriminate)). simpl _elapsed_queue.
    rewrite most_recent_app, <- app_assoc. reflexivity.
Qed.

Lemma get_elapsed_all (s : State) :
  get_elapsed s = (Returns (_elapsed_queue s), set__elapsed_queue [] s).
Proof. unfold get_elapsed. rewrite drain_loop_all. reflexivity. Qed.

(** A drain after insertions into an empty queue. *)
Lemma get_elapsed_after_inserts (s : State) (l : list ElapsedArgs) :
  1 <= MAX_ELAPSED_QUEUE_SIZE ->
  _elapsed_queue s = [] ->
  forallb valid_args l = true ->
  fst (get_elapsed (snd (add_elapsed_all l s))) =
  Returns (most_recent (Z.to_nat MAX_ELAPSED_QUEUE_SIZE) (map record_of l)).
Proof.
  intros Hcap Hq Hv. destruct l as [|a l'].
  - simpl. rewrite get_elapsed_all, Hq. reflexivity.
  - rewrite (add_elapsed_all_bounded (a :: l') Hcap Hv ltac:(discriminate)).
    rewrite get_elapsed_all, Hq. reflexivity.
Qed.

(** More insertions than the limit: the drain cannot return them all. *)
Lemma get_elapsed_after_overflow (s : State) (l : list ElapsedArgs) :
  1 <= MAX_ELAPSED_QUEUE_SIZE ->
  _elapsed_queue s = [] ->
  forallb valid_args l = true ->
  MAX_ELAPSED_QUEUE_SIZE < Z.of_nat (List.length l) ->
  fst (get_elapsed (snd (add_elapsed_all l s))) <> Returns (map record_of l).
Proof.
  intros Hcap Hq Hv Hmany.
  rewrite (get_elapsed_after_inserts s l Hcap Hq Hv).
  intros H. injection H as H. apply (f_equal (@List.length _)) in H.
  rewrite most_recent_length, length_map in H. lia.
Qed.

(** C2.  Take any sequence of [add_elapsed] calls whose assertions hold, made
    in any state of the object, with a limit [MAX_ELAPSED_QUEUE_SIZE] of at
    least one.  Every call returns, and after the last one the queue holds
    exactly the [MAX_ELAPSED_QUEUE_SIZE] newest of the records (those it held
    before followed by the inserted ones), or all of them when they are
    fewer, oldest first; so its length is at most the limit.  The sequence
    being arbitrary, this is the state after each call. *)
Theorem add_elapsed_keeps_most_recent
  (s : State) (l : list ElapsedArgs)
  (Hcap : 1 <= MAX_ELAPSED_QUEUE_SIZE)
  (Hvalid : forallb valid_args l = true)
  (Hcalled : l <> []) :
  exists s' : State,
    add_elapsed_all l s = (Returns tt, s') /\
    _elapsed_queue s' =
      most_recent (Z.to_nat MAX_ELAPSED_QUEUE_SIZE)
        (_elapsed_queue s ++ map record_of l) /\
    qsize (_elapsed_queue s') <= MAX_ELAPSED_QUEUE_SIZE.
Proof.
  eexists. split; [apply (add_elapsed_all_bounded l Hcap Hvalid Hcalled)|].
  split; [reflexivity|].
  simpl _elapsed_queue. unfold qsize. rewrite most_recent_length. lia.
Qed.

(** C3, as amended.  In every state [get_elapsed] returns the records that
    the queue holds, oldest first, and leaves the queue empty; on an empty
    queue it returns the empty list, and so does a second call right after a
    first.  When the queue was empty (as a drain leaves it) and records were
    then inserted by calls whose assertions hold, with a limit of at least
    one, it returns the [MAX_ELAPSED_QUEUE_SIZE] newest of the inserted
    records in the order of insertion: all of them when they are no more than
    the limit. *)
Theorem get_elapsed_returns_queue :
  (forall s : State,
     get_elapsed s = (Returns (_elapsed_queue s), set__elapsed_queue [] s)) /\
  (forall s : State,
     _elapsed_queue s = [] -> get_elapsed s = (Returns [], s)) /\
  (forall s : State,
     get_elapsed (snd (get_elapsed s)) = (Returns [], snd (get_elapsed s))) /\
  (forall (s : State) (l : list ElapsedArgs),
     1 <= MAX_ELAPSED_QUEUE_SIZE ->
     _elapsed_queue s = [] ->
     forallb valid_args l = true ->
     fst (get_elapsed (snd (add_elapsed_all l s))) =
       Returns (most_recent (Z.to_nat MAX_ELAPSED_QUEUE_SIZE)
                  (map record_of l)) /\
     (Z.of_nat (List.length l) <= MAX_ELAPSED_QUEUE_SIZE ->
      fst (get_elapsed (snd (add_elapsed_all l s))) =
        Returns (map record_of l))).
Proof.
  assert (Hempty : forall s : State,
             _elapsed_queue s = [] -> get_elapsed s = (Returns [], s)).
  { intros s Hq. rewrite get_elapsed_all, Hq. destruct s; simpl in *.
    subst. reflexivity. }
  split; [exact get_elapsed_all|]. split; [exact Hempty|].
  split; [intros s; apply Hempty; rewrite get_elapsed_all; reflexivity|].
  intros s l Hcap Hq Hv.
  pose proof (get_elapsed_after_inserts s l Hcap Hq Hv) as Hall.
  split; [exact Hall|].
  intros Hfew. rewrite Hall, most_recent_all; [reflexivity|].
  rewrite length_map. lia.
Qed.

(** With a limit of zero or less the loop empties the queue, and the queue
    holds the new record alone. *)
Lemma add_elapsed_without_room (a : ElapsedArgs) (s : State) :
  MAX_ELAPSED_QUEUE_SIZE <= 0 ->
  valid_args a = true ->
  add_elapsed_args a s = (Returns tt, set__elapsed_queue [record_of a] s).
Proof.
  intros Hcap Hv. rewrite (add_elapsed_args_valid a s Hv).
  replace (Z.to_nat (MAX_ELAPSED_QUEUE_SIZE - 1)) with O by lia.
  unfold most_recent. rewrite Nat.sub_0_r, skipn_all. reflexivity.
Qed.

(** C10.  [add_elapsed] returns when [start_time] is a float, the label
    passes [utilities.valid_string] and [elapsed_seconds] is a float;
    otherwise it raises [AssertionError] and leaves the whole state, the
    queue included, as it was. *)
Theorem add_elapsed_assertions
  (ident : Z) (start_time url_or_fname elapsed_seconds : PyVal) (s : State) :
  let checks :=
    isinstance start_time FloatType
    && truthy (valid_string url_or_fname)
    && isinstance elapsed_seconds FloatType in
  (fst (add_elapsed ident start_time url_or_fname elapsed_seconds s)
     = Raises AssertionError <-> checks = false) /\
  (checks = true ->
   fst (add_elapsed ident start_time url_or_fname elapsed_seconds s)
     = Returns tt) /\
  (checks = false ->
   snd (add_elapsed ident start_time url_or_fname elapsed_seconds s) = s /\
   _elapsed_queue
     (snd (add_elapsed ident start_time url_or_fname elapsed_seconds s))
     = _elapsed_queue s).
Proof.
  intros checks.
  pose (a := mkElapsedArgs ident start_time url_or_fname elapsed_seconds).
  change (add_elapsed ident start_time url_or_fname elapsed_seconds)
    with (add_elapsed_args a).
  change checks with (valid_args a).
  destruct (valid_args a) eqn:Hv.
  - rewrite (add_elapsed_args_valid a s Hv). simpl.
    repeat split; intros; discriminate.
  - rewrite (add_elapsed_args_invalid a s Hv). simpl.
    repeat split; intros; try discriminate; reflexivity.
Qed.

(** ** What a call leaves alone *)

(** Unfolds a call down to the attributes it reads and splits on each of
    them. *)
Ltac split_call :=
  unfold step, logger_method, init_caches_and_synchronization,
    get_nodes_cache, get_pods_cache, get_services_cache,
    get_rcontrollers_cache, get_bounded_semaphore, set_testing, get_testing,
    set_num_workers, get_num_workers, get_random_priority, set_logger,
    logger_debug, logger_info, logger_warning, logger_error, logger_fatal,
    logger_exception, call_logger, get_relations_to_timestamps,
    set_relations_to_timestamps, add_elapsed, get_elapsed, with_lock, bind,
    assert, modify, ret, raise;
  cbv beta iota;
  repeat match goal with
  | |- context [match ?x with _ => _ end] =>
      lazymatch x with
      | context [match _ with _ => _ end] => fail
      | _ => destruct x eqn:?; cbv beta iota
      end
  end.

(** Only [set_testing] assigns to [_testing]. *)
Lemma step_keeps_testing (c : Call) (s : State) :
  is_set_testing c = false -> _testing (step c s) = _testing s.
Proof.
  intros Hc. destruct c; try discriminate Hc; split_call; reflexivity.
Qed.

(** Only [init_caches_and_synchronization] assigns to the caches and to the
    semaphore. *)
Lemma step_keeps_caches (c : Call) (s : State) :
  is_init c = false ->
  _nodes_cache (step c s) = _nodes_cache s /\
  _pods_cache (step c s) = _pods_cache s /\
  _services_cache (step c s) = _services_cache s /\
  _rcontrollers_cache (step c s) = _rcontrollers_cache s /\
  _bounded_semaphore (step c s) = _bounded_semaphore s.
Proof.
  intros Hc. destruct c; try discriminate Hc; split_call;
    repeat split; reflexivity.
Qed.

Lemma run_keeps_caches (cs : list Call) :
  forallb (fun c => negb (is_init c)) cs = true ->
  forall s : State,
    _nodes_cache (run cs s) = _nodes_cache s /\
    _pods_cache (run cs s) = _pods_cache s /\
    _services_cache (run cs s) = _services_cache s /\
    _rcontrollers_cache (run cs s) = _rcontrollers_cache s /\
    _bounded_semaphore (run cs s) = _bounded_semaphore s.
Proof.
  induction cs as [|c cs IH]; intros Hcs s; [repeat split|].
  simpl in Hcs. apply andb_prop in Hcs as [Hc Hrest].
  apply negb_true_iff in Hc.
  change (run (c :: cs) s) with (run cs (step c s)).
  destruct (IH Hrest (step c s)) as (-> & -> & -> & -> & ->).
  apply step_keeps_caches, Hc.
Qed.

(** Every call that ends leaves the locks free when it found them free. *)
Lemma step_keeps_locks_free (c : Call) (s : State) :
  locks_free s -> locks_free (step c s).
Proof.
  unfold locks_free. intros (H1 & H2 & H3).
  destruct c; split_call; simpl; repeat split; congruence.
Qed.

(** C1, as amended.  The five accessors never raise: in every state each
    returns the attribute of its own name and leaves the state as it is.  In
    a state reached from [__init__] by calls among which there is no
    [init_caches_and_synchronization], each returns [None].  After
    [init_caches_and_synchronization], and after any further calls among
    which there is no second [init_caches_and_synchronization], each returns
    the object that the call created. *)
Theorem accessors_return_attribute :
  (forall s : State,
     get_nodes_cache s = (Returns (_nodes_cache s), s) /\
     get_pods_cache s = (Returns (_pods_cache s), s) /\
     get_services_cache s = (Returns (_services_cache s), s) /\
     get_rcontrollers_cache s = (Returns (_rcontrollers_cache s), s) /\
     get_bounded_semaphore s = (Returns (_bounded_semaphore s), s)) /\
  (forall (seeded : Random) (cs : list Call),
     forallb (fun c => negb (is_init c)) cs = true ->
     let s := run cs (__init__ seeded) in
     get_nodes_cache s = (Returns None, s) /\
     get_pods_cache s = (Returns None, s) /\
     get_services_cache s = (Returns None, s) /\
     get_rcontrollers_cache s = (Returns None, s) /\
     get_bounded_semaphore s = (Returns None, s)) /\
  (forall (s0 : State) (cs : list Call),
     forallb (fun c => negb (is_init c)) cs = true ->
     let s := run cs (snd (init_caches_and_synchronization s0)) in
     get_nodes_cache s = (Returns (Some new_cache), s) /\
     get_pods_cache s = (Returns (Some new_cache), s) /\
     get_services_cache s = (Returns (Some new_cache), s) /\
     get_rcontrollers_cache s = (Returns (Some new_cache), s) /\
     get_bounded_semaphore s =
       (Returns (Some (mkBoundedSemaphore MAX_CONCURRENT_COMPUTE_GRAPH)), s)).
Proof.
  split; [|split].
  - intros s. repeat split.
  - intros seeded cs Hcs s.
    destruct (run_keeps_caches cs Hcs (__init__ seeded))
      as (H1 & H2 & H3 & H4 & H5).
    unfold get_nodes_cache, get_pods_cache, get_services_cache,
      get_rcontrollers_cache, get_bounded_semaphore, ret.
    fold s in H1, H2, H3, H4, H5. rewrite H1, H2, H3, H4, H5.
    repeat split.
  - intros s0 cs Hcs s.
    destruct (run_keeps_caches cs Hcs
                (snd (init_caches_and_synchronization s0)))
      as (H1 & H2 & H3 & H4 & H5).
    unfold get_nodes_cache, get_pods_cache, get_services_cache,
      get_rcontrollers_cache, get_bounded_semaphore, ret.
    fold s in H1, H2, H3, H4, H5. rewrite H1, H2, H3, H4, H5.
    repeat split.
Qed.

(** ** Priorities *)

Lemma get_random_priority_testing (s : State) :
  truthy (_testing s) = true ->
  _random_lock s = Unlocked ->
  exists s' : State,
    get_random_priority s = (Returns (_sequence_number s + 1), s') /\
    _testing s' = _testing s /\
    _random_lock s' = Unlocked /\
    _sequence_number s' = _sequence_number s + 1.
Proof.
  intros Ht Hl. unfold get_random_priority, with_lock. rewrite Hl.
  simpl. rewrite Ht. simpl. eexists. split; [reflexivity|].
  repeat split.
Qed.

Lemma repeat_priority_testing (n : nat) :
  forall s : State,
    truthy (_testing s) = true ->
    _random_lock s = Unlocked ->
    fst (repeat_call n get_random_priority s) =
    Returns (map (fun i => _sequence_number s + Z.of_nat i) (seq 1 n)).
Proof.
  induction n as [|n IH]; intros s Ht Hl; [reflexivity|].
  destruct (get_random_priority_testing s Ht Hl) as (s' & Hs' & Ht' & Hl' & Hn').
  simpl repeat_call. unfold bind at 1. rewrite Hs'.
  unfold bind. rewrite <- Ht' in Ht.
  specialize (IH s' Ht Hl').
  destruct (repeat_call n get_random_priority s') as [[rest| |] s''];
    simpl in IH; try discriminate.
  injection IH as ->. simpl. unfold ret. simpl. f_equal.
  rewrite Hn'. rewrite <- !seq_shift, !map_map.
  f_equal. apply map_ext. intros i. lia.
Qed.

(** C4.  Let the testing flag be set, to any value that Python takes for
    true, on an object fresh from [__init__].  Then [n] calls of
    [get_random_priority] in a row all return, and they return 1, 2, ...,
    [n] in this order. *)
Theorem testing_priorities_count_from_one
  (seeded : Random) (testing : PyVal) (n : nat)
  (Htesting : truthy testing = true) :
  fst (repeat_call n get_random_priority
         (snd (set_testing testing (__init__ seeded)))) =
  Returns (map Z.of_nat (seq 1 n)).
Proof.
  rewrite repeat_priority_testing; [|exact Htesting|reflexivity].
  reflexivity.
Qed.

(** C5.  Let [randint a b] return a number between [a] and [b], both
    included, as [random.Random] documents.  When the testing flag is false
    and the lock is free, [get_random_priority] returns, and its result is
    between 0 and 1000, both included. *)
Theorem production_priority_in_range
  (s : State)
  (Hrandint : forall (a b : Z) (g : Random),
      a <= b -> a <= fst (randint a b g) <= b)
  (Hproduction : truthy (_testing s) = false)
  (Hfree : _random_lock s = Unlocked) :
  exists (r : Z) (s' : State),
    get_random_priority s = (Returns r, s') /\ 0 <= r <= 1000.
Proof.
  unfold get_random_priority, with_lock. rewrite Hfree. simpl.
  rewrite Hproduction.
  pose proof (Hrandint 0 1000 (_random_generator s) ltac:(lia)) as Hr.
  destruct (randint 0 1000 (_random_generator s)) as [r g].
  simpl in *. eexists. eexists. split; [reflexivity | exact Hr].
Qed.

Lemma run_keeps_testing (cs : list Call) :
  forallb (fun c => negb (is_set_testing c)) cs = true ->
  forall s : State, _testing (run cs s) = _testing s.
Proof.
  induction cs as [|c cs IH]; intros Hcs s; [reflexivity|].
  simpl in Hcs. apply andb_prop in Hcs as [Hc Hrest].
  apply negb_true_iff in Hc.
  change (run (c :: cs) s) with (run cs (step c s)).
  rewrite (IH Hrest). apply step_keeps_testing, Hc.
Qed.

Lemma get_random_priority_sequential (s : State) :
  _random_lock s = Unlocked ->
  truthy (_testing s) = true ->
  get_random_priority s =
  (Returns (_sequence_number s + 1),
   set__sequence_number (_sequence_number s + 1) s).
Proof.
  intros Hl Ht. unfold get_random_priority, with_lock. rewrite Hl.
  simpl. rewrite Ht. simpl. destruct s; simpl in *; subst; reflexivity.
Qed.

Lemma get_random_priority_randomized (s : State) :
  _random_lock s = Unlocked ->
  truthy (_testing s) = false ->
  get_random_priority s =
  (Returns (fst (randint 0 1000 (_random_generator s))),
   set__random_generator (snd (randint 0 1000 (_random_generator s))) s).
Proof.
  intros Hl Ht. unfold get_random_priority, with_lock. rewrite Hl.
  simpl. rewrite Ht.
  destruct (randint 0 1000 (_random_generator s)) as [r g].
  simpl. destruct s; simpl in *; subst; reflexivity.
Qed.

(** C9, as amended.  [get_random_priority] picks its mode at each call from
    the value that [_testing] has then: when that value is true it adds one
    to the sequence number and returns it, leaving the generator alone; when
    it is false it returns what [randint(0, 1000)] draws, leaving the
    sequence number alone.  No call other than [set_testing] changes the
    value of [_testing], so no sequence of such calls changes the mode;
    [set_testing] installs its argument, whatever calls came before, and the
    next [get_random_priority] follows it. *)
Theorem mode_changes_only_by_set_testing :
  (forall s : State,
     _random_lock s = Unlocked ->
     get_random_priority s =
       match mode s with
       | Sequential =>
           (Returns (_sequence_number s + 1),
            set__sequence_number (_sequence_number s + 1) s)
       | Randomized =>
           (Returns (fst (randint 0 1000 (_random_generator s))),
            set__random_generator
              (snd (randint 0 1000 (_random_generator s))) s)
       end) /\
  (forall (c : Call) (s : State),
     is_set_testing c = false ->
     _testing (step c s) = _testing s /\ mode (step c s) = mode s) /\
  (forall (cs : list Call) (s : State),
     forallb (fun c => negb (is_set_testing c)) cs = true ->
     mode (run cs s) = mode s) /\
  (forall (testing : PyVal) (s : State),
     _testing (step (Call_set_testing testing) s) = testing /\
     mode (step (Call_set_testing testing) s) =
       (if truthy testing then Sequential else Randomized) /\
     (_random_lock s = Unlocked ->
      fst (get_random_priority (step (Call_set_testing testing) s)) =
        if truthy testing
        then Returns (_sequence_number s + 1)
        else Returns (fst (randint 0 1000 (_random_generator s))))).
Proof.
  split; [|split; [|split]].
  - intros s Hl. unfold mode. destruct (truthy (_testing s)) eqn:Ht.
    + apply get_random_priority_sequential; assumption.
    + apply get_random_priority_randomized; assumption.
  - intros c s Hc. unfold mode.
    rewrite (step_keeps_testing c s Hc). split; reflexivity.
  - intros cs s Hcs. unfold mode. rewrite (run_keeps_testing cs Hcs).
    reflexivity.
  - intros testing s. split; [reflexivity|]. split; [reflexivity|].
    intros Hl. destruct (truthy testing) eqn:Ht.
    + rewrite get_random_priority_sequential; [reflexivity|exact Hl|exact Ht].
    + rewrite get_random_priority_randomized; [reflexivity|exact Hl|exact Ht].
Qed.

(** ** The setters that assert *)

(** C6.  [set_relations_to_timestamps] raises exactly when its argument is
    not an instance of [dict], and [set_num_workers] raises exactly when its
    argument is not an instance of [int] (the class [types.IntType]: a
    [bool] is an instance of it, a [long] is not).  What is raised is
    [AssertionError], and the state of the object, the mapping and the
    number of workers included, is then as it was. *)
Theorem setters_assert_argument_type :
  (forall (v : PyVal) (s : State),
     ((exists e, fst (set_relations_to_timestamps v s) = Raises e) <->
      isinstance v DictType = false) /\
     (isinstance v DictType = false ->
      set_relations_to_timestamps v s = (Raises AssertionError, s))) /\
  (forall (workers : PyVal) (s : State),
     ((exists e, fst (set_num_workers workers s) = Raises e) <->
      isinstance workers IntType = false) /\
     (isinstance workers IntType = false ->
      set_num_workers workers s = (Raises AssertionError, s))).
Proof.
  split.
  - intros v s.
    unfold set_relations_to_timestamps, with_lock, bind, assert, modify.
    destruct (isinstance v DictType); simpl.
    + split; [|discriminate]. split; [|discriminate].
      intros [e He]. destruct (_relations_lock s); discriminate.
    + split; [|reflexivity]. split; [reflexivity|]. intros _.
      exists AssertionError. reflexivity.
  - intros workers s. unfold set_num_workers, bind, assert, modify.
    destruct (isinstance workers IntType); simpl.
    + split; [|discriminate]. split; [|discriminate].
      intros [e He]. discriminate.
    + split; [|reflexivity]. split; [reflexivity|]. intros _.
      exists AssertionError. reflexivity.
Qed.

(** The argument is installed when the assertion holds. *)
Lemma set_num_workers_int (workers : PyVal) (s : State) :
  isinstance workers IntType = true ->
  set_num_workers workers s = (Returns tt, set__num_workers workers s).
Proof.
  intros H. unfold set_num_workers, bind, assert. rewrite H. reflexivity.
Qed.

Lemma set_relations_to_timestamps_dict (v : PyVal) (s : State) :
  isinstance v DictType = true ->
  _relations_lock s = Unlocked ->
  set_relations_to_timestamps v s =
  (Returns tt, set__relations_to_timestamps v s).
Proof.
  intros H Hl. unfold set_relations_to_timestamps, with_lock, bind, assert.
  rewrite H. simpl. rewrite Hl. simpl.
  destruct s; simpl in *; subst; reflexivity.
Qed.

Lemma get_relations_to_timestamps_free (s : State) :
  _relations_lock s = Unlocked ->
  get_relations_to_timestamps s = (Returns (_relations_to_timestamps s), s).
Proof.
  intros Hl. unfold get_relations_to_timestamps, with_lock. rewrite Hl.
  simpl. destruct s; simpl in *; subst; reflexivity.
Qed.

(** C8.  For a dictionary [m] and a state in which the lock of the mapping
    is free, [set_relations_to_timestamps m] returns, and the call of
    [get_relations_to_timestamps] that follows returns [m] itself, whatever
    the mapping was before; both calls leave the rest of the state alone. *)
Theorem relations_set_then_get
  (m : PyVal) (s : State)
  (Hdict : isinstance m DictType = true)
  (Hfree : _relations_lock s = Unlocked) :
  let s1 := snd (set_relations_to_timestamps m s) in
  set_relations_to_timestamps m s =
    (Returns tt, set__relations_to_timestamps m s) /\
  get_relations_to_timestamps s1 = (Returns m, s1) /\
  _relations_to_timestamps s1 = m.
Proof.
  intros s1. subst s1.
  rewrite (set_relations_to_timestamps_dict m s Hdict Hfree).
  split; [reflexivity|]. split; [|reflexivity].
  rewrite get_relations_to_timestamps_free; [reflexivity | exact Hfree].
Qed.

(** ** Logging *)

(** C7.  Let a logger be installed and the lock of the logger be free.  Each
    of the six logging methods hands its arguments, as they are, to the
    method of the logger of the same level, once and with the lock held.
    When that method raises, the logging method raises the same exception;
    when it returns, the logging method returns.  Either way the lock is
    free afterwards. *)
Theorem logging_releases_lock
  (level : Level) (args : list PyVal) (s : State) (l : Logger)
  (Hlogger : _logger s = Some l)
  (Hfree : _logger_lock s = Unlocked) :
  exists s' : State,
    logger_method level args s =
      (match behaviour l level args with
       | Some e => Raises e
       | None => Returns tt
       end, s') /\
    _logger_lock s' = Unlocked /\
    _logger s' =
      Some (mkLogger (behaviour l)
              (received l ++ [mkSinkCall level args Locked])).
Proof.
  destruct level; simpl logger_method;
    unfold logger_debug, logger_info, logger_warning, logger_error,
      logger_fatal, logger_exception, with_lock, call_logger;
    rewrite Hfree; simpl; rewrite Hlogger;
    match goal with
    | |- context [behaviour l ?lv args] => destruct (behaviour l lv args)
    end;
    eexists; (split; [reflexivity|]); split; reflexivity.
Qed.

(** Without a logger the call raises [AttributeError], and the lock is
    released as well. *)
Lemma logging_without_logger (level : Level) (args : list PyVal) (s : State) :
  _logger s = None ->
  _logger_lock s = Unlocked ->
  logger_method level args s = (Raises AttributeError, s).
Proof.
  intros Hn Hl.
  destruct level; simpl logger_method;
    unfold logger_debug, logger_info, logger_warning, logger_error,
      logger_fatal, logger_exception, with_lock, call_logger;
    rewrite Hl; simpl; rewrite Hn; simpl;
    destruct s; simpl in *; subst; reflexivity.
Qed.

(** * Further properties of the methods *)

(** ** Runs *)

Lemma run_cons (c : Call) (cs : list Call) (s : State) :
  run (c :: cs) s = run cs (step c s).
Proof. reflexivity. Qed.

Lemma run_app (cs cs' : list Call) (s : State) :
  run (cs ++ cs') s = run cs' (run cs s).
Proof. unfold run. apply fold_left_app. Qed.

(** What every call keeps, every run keeps. *)
Lemma run_invariant (P : State -> Prop) :
  (forall c s, P s -> P (step c s)) ->
  forall cs s, P s -> P (run cs s).
Proof.
  intros Hstep. induction cs as [|c cs IH]; intros s Hs; [exact Hs|].
  rewrite run_cons. apply IH, Hstep, Hs.
Qed.

Lemma init_locks_free (seeded : Random) : locks_free (__init__ seeded).
Proof. repeat split. Qed.

Lemma free_call_ends (c : Call) (s : State) :
  locks_free s -> call_blocks c s = false.
Proof.
  unfold locks_free. intros (H1 & H2 & H3).
  destruct c; unfold call_blocks; split_call; simpl; congruence.
Qed.

(** X1.  From [__init__] on, whatever calls are made one after the other,
    the three locks are free between the calls, and so no call waits for a
    lock: every call returns or raises. *)
Theorem locks_free_between_calls (seeded : Random) (cs : list Call) :
  locks_free (run cs (__init__ seeded)) /\
  forall c : Call, call_blocks c (run cs (__init__ seeded)) = false.
Proof.
  assert (H : locks_free (run cs (__init__ seeded))).
  { apply run_invariant; [|apply init_locks_free].
    intros c s. apply step_keeps_locks_free. }
  split; [exact H|]. intros c. apply free_call_ends, H.
Qed.

(** ** More on the elapsed time queue *)

Lemma step_add_elapsed (ident : Z) (st w el : PyVal) (s : State) :
  step (Call_add_elapsed ident st w el) s =
  snd (add_elapsed_args (mkElapsedArgs ident st w el) s).
Proof. reflexivity. Qed.

Lemma step_queue (c : Call) (s : State) :
  _elapsed_queue (step c s) = _elapsed_queue s \/
  _elapsed_queue (step c s) = [] \/
  exists r,
    _elapsed_queue (step c s) =
    most_recent (Z.to_nat (MAX_ELAPSED_QUEUE_SIZE - 1)) (_elapsed_queue s)
    ++ [r].
Proof.
  destruct c;
    try (left; split_call; reflexivity).
  - rewrite step_add_elapsed.
    destruct (valid_args (mkElapsedArgs ident start_time0 url_or_fname
                            elapsed_seconds0)) eqn:Hv.
    + right. right. eexists.
      rewrite (add_elapsed_args_valid _ s Hv). reflexivity.
    + left. rewrite (add_elapsed_args_invalid _ s Hv). reflexivity.
  - right. left. simpl step. rewrite get_elapsed_all. reflexivity.
Qed.

(** X2.  With a limit of at least one, the queue never holds more than
    [MAX_ELAPSED_QUEUE_SIZE] records, whatever calls (insertions, drains,
    failed insertions and calls of the other methods) are made from
    [__init__] on. *)
Theorem queue_bounded_in_every_run
  (seeded : Random) (cs : list Call)
  (Hcap : 1 <= MAX_ELAPSED_QUEUE_SIZE) :
  qsize (_elapsed_queue (run cs (__init__ seeded))) <= MAX_ELAPSED_QUEUE_SIZE.
Proof.
  apply (run_invariant
           (fun s => qsize (_elapsed_queue s) <= MAX_ELAPSED_QUEUE_SIZE)).
  - intros c s Hs.
    destruct (step_queue c s) as [-> | [-> | [r ->]]].
    + exact Hs.
    + unfold qsize. simpl. lia.
    + unfold qsize. rewrite length_app, most_recent_length. simpl. lia.
  - unfold qsize. simpl. lia.
Qed.

(** X3.  While the queue holds fewer records than the limit, an insertion
    whose assertions hold discards nothing: the queue afterwards is the
    queue before followed by the new record. *)
Theorem add_elapsed_below_limit
  (ident : Z) (st w el : PyVal) (s : State)
  (Hvalid : valid_args (mkElapsedArgs ident st w el) = true)
  (Hroom : qsize (_elapsed_queue s) < MAX_ELAPSED_QUEUE_SIZE) :
  add_elapsed ident st w el s =
  (Returns tt,
   set__elapsed_queue
     (_elapsed_queue s ++ [mkElapsedRecord st w ident el]) s).
Proof.
  change (add_elapsed ident st w el)
    with (add_elapsed_args (mkElapsedArgs ident st w el)).
  rewrite (add_elapsed_args_valid _ s Hvalid).
  rewrite most_recent_all; [reflexivity|]. unfold qsize in Hroom. lia.
Qed.

(** X4.  When the queue holds exactly as many records as the limit (of at
    least one), an insertion whose assertions hold discards one record, the
    oldest, and appends the new one. *)
Theorem add_elapsed_at_limit
  (ident : Z) (st w el : PyVal) (s : State)
  (Hvalid : valid_args (mkElapsedArgs ident st w el) = true)
  (Hcap : 1 <= MAX_ELAPSED_QUEUE_SIZE)
  (Hfull : qsize (_elapsed_queue s) = MAX_ELAPSED_QUEUE_SIZE) :
  add_elapsed ident st w el s =
  (Returns tt,
   set__elapsed_queue
     (tl (_elapsed_queue s) ++ [mkElapsedRecord st w ident el]) s).
Proof.
  change (add_elapsed ident st w el)
    with (add_elapsed_args (mkElapsedArgs ident st w el)).
  rewrite (add_elapsed_args_valid _ s Hvalid).
  unfold most_recent, qsize in *.
  replace (List.length (_elapsed_queue s)
           - Z.to_nat (MAX_ELAPSED_QUEUE_SIZE - 1))%nat with 1%nat by lia.
  destruct (_elapsed_queue s); reflexivity.
Qed.

(** X5.  With a limit of zero or less there is never room: an insertion whose
    assertions hold empties the queue and leaves the new record alone in it,
    so that the queue holds more than the limit. *)
Theorem add_elapsed_limit_not_positive
  (a : ElapsedArgs) (s : State)
  (Hcap : MAX_ELAPSED_QUEUE_SIZE <= 0)
  (Hvalid : valid_args a = true) :
  add_elapsed_args a s = (Returns tt, set__elapsed_queue [record_of a] s) /\
  MAX_ELAPSED_QUEUE_SIZE < qsize (_elapsed_queue (snd (add_elapsed_args a s))).
Proof.
  rewrite (add_elapsed_without_room a s Hcap Hvalid).
  split; [reflexivity|]. unfold qsize. simpl. lia.
Qed.

(** X6.  Whatever the limit, an insertion into an empty queue followed by a
    drain gives back exactly the inserted record: the arguments as passed and
    the identifier of the calling thread.  The queue is empty again. *)
Theorem add_then_get_elapsed
  (ident : Z) (st w el : PyVal) (s : State)
  (Hvalid : valid_args (mkElapsedArgs ident st w el) = true)
  (Hempty : _elapsed_queue s = []) :
  get_elapsed (snd (add_elapsed ident st w el s)) =
  (Returns [mkElapsedRecord st w ident el], s).
Proof.
  change (add_elapsed ident st w el)
    with (add_elapsed_args (mkElapsedArgs ident st w el)).
  rewrite (add_elapsed_args_valid _ s Hvalid), Hempty, most_recent_nil.
  rewrite get_elapsed_all. simpl.
  destruct s; simpl in *; subst; reflexivity.
Qed.

(** X7.  Records inserted between two drains are returned by the second
    drain and by no other: when neither batch is larger than the limit, the
    two drains together return all the records, each once, in the order of
    insertion. *)
Theorem two_drains_return_each_record_once
  (s : State) (l1 l2 : list ElapsedArgs)
  (Hcap : 1 <= MAX_ELAPSED_QUEUE_SIZE)
  (Hempty : _elapsed_queue s = [])
  (Hvalid1 : forallb valid_args l1 = true)
  (Hvalid2 : forallb valid_args l2 = true)
  (Hfew1 : Z.of_nat (List.length l1) <= MAX_ELAPSED_QUEUE_SIZE)
  (Hfew2 : Z.of_nat (List.length l2) <= MAX_ELAPSED_QUEUE_SIZE) :
  let s1 := snd (add_elapsed_all l1 s) in
  let s2 := snd (add_elapsed_all l2 (snd (get_elapsed s1))) in
  fst (get_elapsed s1) = Returns (map record_of l1) /\
  fst (get_elapsed s2) = Returns (map record_of l2) /\
  _elapsed_queue (snd (get_elapsed s2)) = [].
Proof.
  intros s1 s2.
  assert (H1 : fst (get_elapsed s1) = Returns (map record_of l1)).
  { subst s1. rewrite (get_elapsed_after_inserts s l1 Hcap Hempty Hvalid1).
    rewrite most_recent_all; [reflexivity|]. rewrite length_map. lia. }
  split; [exact H1|]. split.
  - subst s2.
    rewrite (get_elapsed_after_inserts _ l2 Hcap); [| |exact Hvalid2].
    + rewrite most_recent_all; [reflexivity|]. rewrite length_map. lia.
    + rewrite get_elapsed_all. reflexivity.
  - rewrite get_elapsed_all. reflexivity.
Qed.

(** ** More on logging *)

Lemma logger_method_installed
  (level : Level) (args : list PyVal) (s : State) (l : Logger) :
  _logger s = Some l ->
  _logger_lock s = Unlocked ->
  logger_method level args s =
  (match behaviour l level args with
   | Some e => Raises e
   | None => Returns tt
   end,
   set__logger
     (Some (mkLogger (behaviour l)
              (received l ++ [mkSinkCall level args Locked]))) s).
Proof.
  intros Hl Hfree.
  destruct level; simpl logger_method;
    unfold logger_debug, logger_info, logger_warning, logger_error,
      logger_fatal, logger_exception, with_lock, call_logger;
    rewrite Hfree; simpl; rewrite Hl;
    match goal with
    | |- context [behaviour l ?lv args] => destruct (behaviour l lv args)
    end;
    simpl; destruct s; simpl in *; subst; reflexivity.
Qed.

Lemma step_keeps_no_logger (c : Call) (s : State) :
  is_set_logger c = false -> _logger s = None -> _logger (step c s) = None.
Proof.
  intros Hc Hn. destruct c; try discriminate Hc; split_call;
    simpl in *; congruence.
Qed.

(** X8.  As long as [set_logger] has not been called, the attribute of the
    logger is [None], as [__init__] left it, and every logging call raises
    [AttributeError]; the lock is released and the state is as before the
    call. *)
Theorem logging_before_set_logger
  (seeded : Random) (cs : list Call) (level : Level) (args : list PyVal)
  (Hothers : forallb (fun c => negb (is_set_logger c)) cs = true) :
  logger_method level args (run cs (__init__ seeded)) =
  (Raises AttributeError, run cs (__init__ seeded)).
Proof.
  assert (H : _logger (run cs (__init__ seeded)) = None /\
              locks_free (run cs (__init__ seeded))).
  { generalize (init_locks_free seeded).
    generalize (eq_refl : _logger (__init__ seeded) = None).
    generalize (__init__ seeded) as s.
    induction cs as [|c cs IH]; intros s Hn Hf; [split; assumption|].
    simpl in Hothers. apply andb_prop in Hothers as [Hc Hrest].
    apply negb_true_iff in Hc. rewrite run_cons.
    apply (IH Hrest).
    - apply step_keeps_no_logger; assumption.
    - apply step_keeps_locks_free, Hf. }
  destruct H as [Hn Hf].
  apply logging_without_logger; [exact Hn | apply Hf].
Qed.

(** X9.  Logging calls made one after the other reach the installed logger
    in the order of the calls, each once, with its own level and arguments
    and with the lock held; a call in which the logger raises does not keep
    the later ones from it.  The lock is free after the last. *)
Theorem logging_calls_arrive_in_order
  (calls : list (Level * list PyVal)) (s : State) (l : Logger)
  (Hlogger : _logger s = Some l)
  (Hfree : _logger_lock s = Unlocked) :
  _logger (run (logging_calls calls) s) =
    Some (mkLogger (behaviour l) (received l ++ noted_calls calls)) /\
  _logger_lock (run (logging_calls calls) s) = Unlocked.
Proof.
  revert s l Hlogger Hfree.
  induction calls as [|[level args] calls IH]; intros s l Hlogger Hfree.
  - simpl. rewrite app_nil_r, Hlogger. destruct l. split; [reflexivity|].
    exact Hfree.
  - simpl logging_calls. rewrite run_cons. simpl step.
    rewrite (logger_method_installed level args s l Hlogger Hfree).
    simpl snd.
    destruct (IH (set__logger
                    (Some (mkLogger (behaviour l)
                             (received l ++ [mkSinkCall level args Locked])))
                    s) _ eq_refl Hfree) as [H1 H2].
    rewrite H1, H2. simpl. rewrite <- app_assoc. split; reflexivity.
Qed.

(** X10.  [set_logger], called with the lock free, returns and replaces the
    logger: the next logging call goes to the new logger, which notes it
    after the calls it had noted itself, and ends as the new logger
    decides. *)
Theorem set_logger_then_log
  (l : Logger) (level : Level) (args : list PyVal) (s : State)
  (Hfree : _logger_lock s = Unlocked) :
  let s1 := snd (set_logger (Some l) s) in
  fst (set_logger (Some l) s) = Returns tt /\
  fst (logger_method level args s1) =
    match behaviour l level args with
    | Some e => Raises e
    | None => Returns tt
    end /\
  _logger (snd (logger_method level args s1)) =
    Some (mkLogger (behaviour l)
            (received l ++ [mkSinkCall level args Locked])).
Proof.
  intros s1.
  assert (Hs1 : set_logger (Some l) s = (Returns tt, set__logger (Some l) s)).
  { unfold set_logger, with_lock. rewrite Hfree. simpl.
    destruct s; simpl in *; subst; reflexivity. }
  subst s1. rewrite Hs1. simpl fst. simpl snd.
  rewrite (logger_method_installed level args (set__logger (Some l) s) l
             eq_refl Hfree).
  repeat split.
Qed.

(** ** Attributes across calls *)

Lemma step_keeps_num_workers (c : Call) (s : State) :
  is_set_num_workers c = false -> _num_workers (step c s) = _num_workers s.
Proof.
  intros Hc. destruct c; try discriminate Hc; split_call; reflexivity.
Qed.

Lemma step_keeps_relations (c : Call) (s : State) :
  is_set_relations_to_timestamps c = false ->
  _relations_to_timestamps (step c s) = _relations_to_timestamps s.
Proof.
  intros Hc. destruct c; try discriminate Hc; split_call; reflexivity.
Qed.

Lemma run_keeps_attribute {A : Type}
  (attribute : State -> A) (sets : Call -> bool) :
  (forall c s, sets c = false -> attribute (step c s) = attribute s) ->
  forall cs,
    forallb (fun c => negb (sets c)) cs = true ->
    forall s, attribute (run cs s) = attribute s.
Proof.
  intros Hstep. induction cs as [|c cs IH]; intros Hcs s; [reflexivity|].
  simpl in Hcs. apply andb_prop in Hcs as [Hc Hrest].
  apply negb_true_iff in Hc.
  rewrite run_cons, (IH Hrest). apply Hstep, Hc.
Qed.

(** X11.  The number of workers that [set_num_workers] accepted (an [int]
    or a [bool]) is what [get_num_workers] returns afterwards, whatever calls
    other than [set_num_workers] were made in between. *)
Theorem num_workers_kept_across_calls
  (workers : PyVal) (cs : list Call) (s : State)
  (Hint : isinstance workers IntType = true)
  (Hothers : forallb (fun c => negb (is_set_num_workers c)) cs = true) :
  fst (get_num_workers (run cs (snd (set_num_workers workers s)))) =
  Returns workers.
Proof.
  unfold get_num_workers, ret. simpl fst.
  rewrite (run_keeps_attribute _ _ step_keeps_num_workers cs Hothers).
  rewrite (set_num_workers_int workers s Hint). reflexivity.
Qed.

(** X12.  The mapping that [set_relations_to_timestamps] installed is what
    [get_relations_to_timestamps] returns afterwards, whatever calls other
    than [set_relations_to_timestamps] were made in between; the locks are
    free at the start. *)
Theorem relations_kept_across_calls
  (m : PyVal) (cs : list Call) (s : State)
  (Hdict : isinstance m DictType = true)
  (Hfree : locks_free s)
  (Hothers :
     forallb (fun c => negb (is_set_relations_to_timestamps c)) cs = true) :
  fst (get_relations_to_timestamps
         (run cs (snd (set_relations_to_timestamps m s)))) = Returns m.
Proof.
  assert (Hfree' : locks_free (snd (set_relations_to_timestamps m s))).
  { apply (step_keeps_locks_free (Call_set_relations_to_timestamps m) s),
      Hfree. }
  assert (Hrun : locks_free (run cs (snd (set_relations_to_timestamps m s)))).
  { apply run_invariant; [|exact Hfree'].
    intros c s0. apply step_keeps_locks_free. }
  rewrite get_relations_to_timestamps_free; [|apply Hrun].
  simpl fst.
  rewrite (run_keeps_attribute _ _ step_keeps_relations cs Hothers).
  rewrite (set_relations_to_timestamps_dict m s Hdict); [reflexivity|].
  apply Hfree.
Qed.

Lemma step_keeps_initialized (c : Call) (s : State) :
  initialized s -> initialized (step c s).
Proof.
  unfold initialized. intros H.
  destruct (is_init c) eqn:Hc.
  - destruct c; try discriminate Hc. simpl. repeat split; discriminate.
  - destruct (step_keeps_caches c s Hc) as (-> & -> & -> & -> & ->).
    exact H.
Qed.

(** X13.  Once [init_caches_and_synchronization] has been called, the five
    accessors never return [None] again, whatever calls follow, a repeated
    [init_caches_and_synchronization] (which installs new objects)
    included.  When no [init_caches_and_synchronization] is among the calls
    that follow, none of the five attributes is assigned again: they hold
    what the call installed, and the accessors return it. *)
Theorem initialized_for_good (s0 : State) (cs : list Call) :
  let s1 := snd (init_caches_and_synchronization s0) in
  let s := run cs s1 in
  ((exists c, fst (get_nodes_cache s) = Returns (Some c)) /\
   (exists c, fst (get_pods_cache s) = Returns (Some c)) /\
   (exists c, fst (get_services_cache s) = Returns (Some c)) /\
   (exists c, fst (get_rcontrollers_cache s) = Returns (Some c)) /\
   (exists b, fst (get_bounded_semaphore s) = Returns (Some b))) /\
  (forallb (fun c => negb (is_init c)) cs = true ->
   fst (get_nodes_cache s) = fst (get_nodes_cache s1) /\
   fst (get_pods_cache s) = fst (get_pods_cache s1) /\
   fst (get_services_cache s) = fst (get_services_cache s1) /\
   fst (get_rcontrollers_cache s) = fst (get_rcontrollers_cache s1) /\
   fst (get_bounded_semaphore s) = fst (get_bounded_semaphore s1) /\
   _nodes_cache s = Some new_cache /\
   _pods_cache s = Some new_cache /\
   _services_cache s = Some new_cache /\
   _rcontrollers_cache s = Some new_cache /\
   _bounded_semaphore s =
     Some (mkBoundedSemaphore MAX_CONCURRENT_COMPUTE_GRAPH)).
Proof.
  intros s1 s. split.
  - assert (H : initialized s).
    { apply run_invariant; [exact step_keeps_initialized|].
      repeat split; discriminate. }
    destruct H as (H1 & H2 & H3 & H4 & H5).
    unfold get_nodes_cache, get_pods_cache, get_services_cache,
      get_rcontrollers_cache, get_bounded_semaphore, ret. simpl fst.
    destruct (_nodes_cache s); [|congruence].
    destruct (_pods_cache s); [|congruence].
    destruct (_services_cache s); [|congruence].
    destruct (_rcontrollers_cache s); [|congruence].
    destruct (_bounded_semaphore s); [|congruence].
    repeat split; eexists; reflexivity.
  - intros Hcs.
    destruct (run_keeps_caches cs Hcs s1) as (H1 & H2 & H3 & H4 & H5).
    fold s in H1, H2, H3, H4, H5.
    unfold get_nodes_cache, get_pods_cache, get_services_cache,
      get_rcontrollers_cache, get_bounded_semaphore, ret. simpl fst.
    rewrite H1, H2, H3, H4, H5. repeat split.
Qed.

(** ** More on priorities *)

Lemma step_sequence_number (c : Call) (s : State) :
  _sequence_number s <= _sequence_number (step c s).
Proof.
  destruct c; split_call; simpl; lia.
Qed.

(** X14.  In testing mode a priority is larger than every priority returned
    before it in testing mode, whatever calls were made in between, a
    change of the flag and back included: the counter never goes down and
    is never reset. *)
Theorem testing_priorities_increase
  (s : State) (cs : list Call)
  (Hfree : locks_free s)
  (Htesting : truthy (_testing s) = true)
  (Hlater :
     truthy (_testing (run cs (snd (get_random_priority s)))) = true) :
  exists p1 p2 : Z,
    fst (get_random_priority s) = Returns p1 /\
    fst (get_random_priority (run cs (snd (get_random_priority s))))
      = Returns p2 /\
    p1 < p2.
Proof.
  destruct Hfree as (Hf1 & Hf2 & Hf3).
  destruct (get_random_priority_testing s Htesting Hf2)
    as (s1 & Hs1 & Ht1 & Hl1 & Hn1).
  rewrite Hs1 in *. simpl snd in *.
  assert (Hfree1 : locks_free s1).
  { pose proof (step_keeps_locks_free Call_get_random_priority s
                  (conj Hf1 (conj Hf2 Hf3))) as H.
    simpl step in H. rewrite Hs1 in H. exact H. }
  assert (Hrun : locks_free (run cs s1)).
  { apply run_invariant; [|exact Hfree1].
    intros c s0. apply step_keeps_locks_free. }
  destruct (get_random_priority_testing (run cs s1) Hlater
              (proj1 (proj2 Hrun))) as (s2 & Hs2 & _).
  rewrite Hs2. eexists. eexists.
  split; [reflexivity|]. split; [reflexivity|].
  assert (Hmono : _sequence_number s1 <= _sequence_number (run cs s1)).
  { clear. revert s1. induction cs as [|c cs IH]; intros s1; [simpl; lia|].
    rewrite run_cons.
    pose proof (step_sequence_number c s1). pose proof (IH (step c s1)).
    lia. }
  lia.
Qed.

(** X15.  The two modes keep apart.  A call that is not
    [get_random_priority] changes neither the generator nor the counter;
    [get_random_priority] leaves the generator alone in testing mode and the
    counter alone in production mode. *)
Theorem modes_keep_apart (c : Call) (s : State) :
  (is_get_random_priority c = false ->
   _random_generator (step c s) = _random_generator s /\
   _sequence_number (step c s) = _sequence_number s) /\
  (truthy (_testing s) = true ->
   _random_generator (step c s) = _random_generator s) /\
  (truthy (_testing s) = false ->
   _sequence_number (step c s) = _sequence_number s).
Proof.
  split; [|split].
  - intros Hc. destruct c; try discriminate Hc; split_call;
      split; reflexivity.
  - intros Ht. destruct c; split_call; try reflexivity;
      simpl in *; congruence.
  - intros Ht. destruct c; split_call; try reflexivity;
      simpl in *; congruence.
Qed.

(** The accessors and the getters only read: with the locks free,
    such a call leaves the whole state as it found it, the lock that
    [get_relations_to_timestamps] takes included.  ([get_elapsed] is not
    among them: it empties the queue.) *)
Theorem getters_change_nothing (c : Call) (s : State)
  (Hgetter : is_getter c = true)
  (Hfree : locks_free s) :
  step c s = s.
Proof.
  destruct Hfree as (H1 & H2 & H3).
  destruct c; try discriminate Hgetter; try reflexivity.
  simpl step. rewrite get_relations_to_timestamps_free; [reflexivity|].
  exact H3.
Qed.

End Properties.

(** * The properties on the example instance *)

#[local] Existing Instance example_imports.

(** C1: on an object fresh from [__init__] the five accessors return [None];
    none of them raises. *)
Lemma accessors_before_init_counterexample :
  fst (get_nodes_cache example_state) = Returns None /\
  fst (get_pods_cache example_state) = Returns None /\
  fst (get_services_cache example_state) = Returns None /\
  fst (get_rcontrollers_cache example_state) = Returns None /\
  fst (get_bounded_semaphore example_state) = Returns None /\
  ~ (exists e, fst (get_nodes_cache example_state) = Raises e).
Proof.
  repeat split. intros [e He]. discriminate He.
Qed.

Lemma accessors_return_attribute_witness :
  let cs := [Call_set_testing (PyBool true); Call_get_random_priority;
             Call_add_elapsed 1 (PyFloat 1.5%float) (PyStr "a")
               (PyFloat 0.25%float)] in
  forallb (fun c => negb (is_init c)) cs = true /\
  get_bounded_semaphore (run cs example_state) =
    (Returns None, run cs example_state) /\
  fst (get_pods_cache
         (run cs (snd (init_caches_and_synchronization example_state)))) =
    Returns (Some (mkSimpleCache (PyInt 10) (PyInt 3600))).
Proof.
  intros cs. split; [reflexivity|]. split.
  - apply (proj1 (proj2 (@accessors_return_attribute example_imports)) 42 cs).
    reflexivity.
  - pose proof (proj2 (proj2 (@accessors_return_attribute example_imports))
                  example_state cs eq_refl) as H.
    cbv zeta in H. destruct H as (_ & H & _). rewrite H. reflexivity.
Defined.

Lemma add_elapsed_keeps_most_recent_witness :
  1 <= @MAX_ELAPSED_QUEUE_SIZE example_imports /\
  forallb valid_args example_three_calls = true /\
  example_three_calls <> [] /\
  exists s',
    add_elapsed_all example_three_calls example_state = (Returns tt, s') /\
    _elapsed_queue s' =
      most_recent 2 (map record_of example_three_calls) /\
    qsize (_elapsed_queue s') <= 2.
Proof.
  assert (H1 : 1 <= @MAX_ELAPSED_QUEUE_SIZE example_imports)
    by (simpl; lia).
  assert (H2 : forallb valid_args example_three_calls = true)
    by reflexivity.
  assert (H3 : example_three_calls <> []) by discriminate.
  repeat (split; [assumption|]).
  exact (@add_elapsed_keeps_most_recent example_imports example_state
           example_three_calls H1 H2 H3).
Defined.

(** C3: with room for two records, three are inserted after a drain; the
    next drain returns the last two, not the three. *)
Lemma get_elapsed_since_last_drain_counterexample :
  let drained := snd (get_elapsed example_state) in
  let s := snd (add_elapsed_all example_three_calls drained) in
  fst (add_elapsed_all example_three_calls drained) = Returns tt /\
  fst (get_elapsed s) =
    Returns [record_of (example_args 2 "b"); record_of (example_args 3 "c")] /\
  fst (get_elapsed s) <> Returns (map record_of example_three_calls).
Proof.
  cbv zeta. split; [reflexivity|]. split; [reflexivity|].
  intros H.
  assert (Hlen : forall a b : list ElapsedRecord,
             Returns a = Returns b -> List.length a = List.length b)
    by (intros a b Hab; injection Hab as ->; reflexivity).
  apply Hlen in H. vm_compute in H. discriminate H.
Qed.

Lemma get_elapsed_returns_queue_witness :
  1 <= @MAX_ELAPSED_QUEUE_SIZE example_imports /\
  _elapsed_queue example_state = [] /\
  forallb valid_args example_three_calls = true /\
  fst (get_elapsed (snd (add_elapsed_all example_three_calls example_state)))
    = Returns (most_recent 2 (map record_of example_three_calls)).
Proof.
  assert (H1 : 1 <= @MAX_ELAPSED_QUEUE_SIZE example_imports)
    by (simpl; lia).
  repeat (split; [first [assumption | reflexivity]|]).
  exact (proj1 (proj2 (proj2 (proj2
           (@get_elapsed_returns_queue example_imports)))
           example_state example_three_calls H1 eq_refl eq_refl)).
Defined.

Lemma testing_priorities_count_from_one_witness :
  truthy (PyInt 7) = true /\
  fst (repeat_call 5 get_random_priority
         (snd (set_testing (PyInt 7) example_state))) =
  Returns [1; 2; 3; 4; 5].
Proof.
  split; [reflexivity|].
  exact (@testing_priorities_count_from_one example_imports 42 (PyInt 7) 5
           eq_refl).
Defined.

Lemma example_randint_in_range (a b g : Z) :
  a <= b -> a <= fst (example_randint a b g) <= b.
Proof.
  intros Hab. unfold example_randint. simpl.
  pose proof (Z.mod_pos_bound g (b - a + 1) ltac:(lia)). lia.
Defined.

Lemma production_priority_in_range_witness :
  (forall a b g : Z, a <= b -> a <= fst (example_randint a b g) <= b) /\
  truthy (_testing example_state) = false /\
  _random_lock example_state = Unlocked /\
  exists r s',
    get_random_priority example_state = (Returns r, s') /\ 0 <= r <= 1000.
Proof.
  split; [exact example_randint_in_range|].
  split; [reflexivity|]. split; [reflexivity|].
  exact (@production_priority_in_range example_imports example_state
           example_randint_in_range eq_refl eq_refl).
Defined.

(** The two classes next to [int]: a [bool] passes the assertion of
    [set_num_workers], a [long] does not. *)
Example set_num_workers_bool :
  set_num_workers (PyBool true) example_state =
  (Returns tt, set__num_workers (PyBool true) example_state).
Proof. reflexivity. Qed.

Example set_num_workers_long :
  set_num_workers (PyLong 4) example_state =
  (Raises AssertionError, example_state).
Proof. reflexivity. Qed.

Lemma setters_assert_argument_type_witness :
  isinstance (PyList []) DictType = false /\
  set_relations_to_timestamps (PyList []) example_state =
    (Raises AssertionError, example_state) /\
  isinstance (PyFloat 2.5%float) IntType = false /\
  set_num_workers (PyFloat 2.5%float) example_state =
    (Raises AssertionError, example_state).
Proof.
  split; [reflexivity|]. split.
  - apply (proj1 (@setters_assert_argument_type example_imports)).
    reflexivity.
  - split; [reflexivity|].
    apply (proj2 (@setters_assert_argument_type example_imports)).
    reflexivity.
Defined.

Lemma logging_releases_lock_witness :
  _logger example_logging_state = Some example_logger /\
  _logger_lock example_logging_state = Unlocked /\
  exists s',
    logger_error [PyStr "failed"; PyInt 3] example_logging_state =
      (Raises (Raised "IOError"), s') /\
    _logger_lock s' = Unlocked /\
    _logger s' =
      Some (mkLogger (behaviour example_logger)
              [mkSinkCall Error [PyStr "failed"; PyInt 3] Locked]).
Proof.
  split; [reflexivity|]. split; [reflexivity|].
  exact (@logging_releases_lock example_imports Error
           [PyStr "failed"; PyInt 3] example_logging_state example_logger
           eq_refl eq_refl).
Defined.

Lemma relations_set_then_get_witness :
  isinstance example_mapping DictType = true /\
  _relations_lock example_state = Unlocked /\
  get_relations_to_timestamps
    (snd (set_relations_to_timestamps example_mapping example_state)) =
  (Returns example_mapping,
   snd (set_relations_to_timestamps example_mapping example_state)).
Proof.
  split; [reflexivity|]. split; [reflexivity|].
  exact (proj1 (proj2 (@relations_set_then_get example_imports
                         example_mapping example_state eq_refl eq_refl))).
Defined.

(** C9: the object is left in production mode and draws one priority; a
    call of [set_testing] then puts it in the other mode, and the next
    priority is the first sequence number. *)
Lemma mode_fixed_counterexample :
  let configured := step (Call_set_testing (PyBool false)) example_state in
  let s1 := step Call_get_random_priority configured in
  let s2 := step (Call_set_testing (PyBool true)) s1 in
  mode configured = Randomized /\
  fst (get_random_priority configured) = Returns 42 /\
  mode s1 = Randomized /\
  mode s2 = Sequential /\
  fst (get_random_priority s2) = Returns 1 /\
  mode s2 <> mode configured.
Proof.
  cbv zeta. repeat split. discriminate.
Qed.

Lemma mode_changes_only_by_set_testing_witness :
  is_set_testing Call_get_random_priority = false /\
  mode (step Call_get_random_priority example_state) = mode example_state /\
  _random_lock example_state = Unlocked /\
  fst (get_random_priority example_state) = Returns 42 /\
  fst (get_random_priority
         (step (Call_set_testing (PyStr "yes")) example_state)) = Returns 1.
Proof.
  split; [reflexivity|]. split.
  - exact (proj2 (proj1 (proj2
             (@mode_changes_only_by_set_testing example_imports))
             Call_get_random_priority example_state eq_refl)).
  - split; [reflexivity|]. split.
    + rewrite (proj1 (@mode_changes_only_by_set_testing example_imports)
                 example_state eq_refl).
      reflexivity.
    + exact (proj2 (proj2 (proj2 (proj2 (proj2
               (@mode_changes_only_by_set_testing example_imports)))
               (PyStr "yes") example_state)) eq_refl).
Defined.

Lemma add_elapsed_assertions_witness :
  isinstance (PyFloat 1.5%float) FloatType
  && truthy (example_valid_string (PyStr ""))
  && isinstance (PyFloat 0.25%float) FloatType = false /\
  snd (add_elapsed 1 (PyFloat 1.5%float) (PyStr "") (PyFloat 0.25%float)
         example_state) = example_state.
Proof.
  split; [reflexivity|].
  apply (proj2 (proj2 (@add_elapsed_assertions example_imports 1
                         (PyFloat 1.5%float) (PyStr "") (PyFloat 0.25%float)
                         example_state))).
  reflexivity.
Defined.

(** ** The further properties on the example instance *)

Lemma queue_bounded_in_every_run_witness :
  1 <= @MAX_ELAPSED_QUEUE_SIZE example_imports /\
  qsize (_elapsed_queue (run example_run example_state)) <= 2.
Proof.
  assert (H1 : 1 <= @MAX_ELAPSED_QUEUE_SIZE example_imports)
    by (simpl; lia).
  split; [exact H1|].
  exact (@queue_bounded_in_every_run example_imports 42 example_run H1).
Defined.

Lemma add_elapsed_below_limit_witness :
  valid_args (example_args 1 "a") = true /\
  qsize (_elapsed_queue example_state)
    < @MAX_ELAPSED_QUEUE_SIZE example_imports /\
  add_elapsed 1 (PyFloat 1.5%float) (PyStr "a") (PyFloat 0.25%float)
    example_state =
  (Returns tt,
   set__elapsed_queue [record_of (example_args 1 "a")] example_state).
Proof.
  assert (H2 : qsize (_elapsed_queue example_state)
               < @MAX_ELAPSED_QUEUE_SIZE example_imports)
    by reflexivity.
  split; [reflexivity|]. split; [exact H2|].
  exact (@add_elapsed_below_limit example_imports 1 (PyFloat 1.5%float)
           (PyStr "a") (PyFloat 0.25%float) example_state eq_refl H2).
Defined.

Lemma add_elapsed_at_limit_witness :
  let full :=
    snd (add_elapsed_all [example_args 1 "a"; example_args 2 "b"]
           example_state) in
  valid_args (example_args 3 "c") = true /\
  1 <= @MAX_ELAPSED_QUEUE_SIZE example_imports /\
  qsize (_elapsed_queue full) = @MAX_ELAPSED_QUEUE_SIZE example_imports /\
  _elapsed_queue
    (snd (add_elapsed 3 (PyFloat 1.5%float) (PyStr "c") (PyFloat 0.25%float)
            full)) =
  [record_of (example_args 2 "b"); record_of (example_args 3 "c")].
Proof.
  intros full.
  assert (H1 : 1 <= @MAX_ELAPSED_QUEUE_SIZE example_imports)
    by (simpl; lia).
  split; [reflexivity|]. split; [exact H1|]. split; [reflexivity|].
  rewrite (@add_elapsed_at_limit example_imports 3 (PyFloat 1.5%float)
             (PyStr "c") (PyFloat 0.25%float) full eq_refl H1 eq_refl).
  reflexivity.
Defined.

Lemma add_elapsed_limit_not_positive_witness :
  let s := @__init__ example_imports_no_room 42 in
  @MAX_ELAPSED_QUEUE_SIZE example_imports_no_room <= 0 /\
  @valid_args example_imports_no_room (example_args 1 "a") = true /\
  @MAX_ELAPSED_QUEUE_SIZE example_imports_no_room
    < qsize (_elapsed_queue
               (snd (@add_elapsed_args example_imports_no_room
                       (example_args 1 "a") s))).
Proof.
  intros s.
  assert (H1 : @MAX_ELAPSED_QUEUE_SIZE example_imports_no_room <= 0)
    by (simpl; lia).
  split; [exact H1|]. split; [reflexivity|].
  exact (proj2 (@add_elapsed_limit_not_positive example_imports_no_room
                  (example_args 1 "a") s H1 eq_refl)).
Defined.

Lemma add_then_get_elapsed_witness :
  valid_args (example_args 7 "http://host/pods") = true /\
  _elapsed_queue example_state = [] /\
  get_elapsed
    (snd (add_elapsed 7 (PyFloat 1.5%float) (PyStr "http://host/pods")
            (PyFloat 0.25%float) example_state)) =
  (Returns [record_of (example_args 7 "http://host/pods")], example_state).
Proof.
  split; [reflexivity|]. split; [reflexivity|].
  exact (@add_then_get_elapsed example_imports 7 (PyFloat 1.5%float)
           (PyStr "http://host/pods") (PyFloat 0.25%float) example_state
           eq_refl eq_refl).
Defined.

Lemma two_drains_return_each_record_once_witness :
  let l1 := [example_args 1 "a"; example_args 2 "b"] in
  let l2 := [example_args 3 "c"] in
  let s1 := snd (add_elapsed_all l1 example_state) in
  let s2 := snd (add_elapsed_all l2 (snd (get_elapsed s1))) in
  1 <= @MAX_ELAPSED_QUEUE_SIZE example_imports /\
  _elapsed_queue example_state = [] /\
  forallb valid_args l1 = true /\
  forallb valid_args l2 = true /\
  Z.of_nat (List.length l1) <= @MAX_ELAPSED_QUEUE_SIZE example_imports /\
  Z.of_nat (List.length l2) <= @MAX_ELAPSED_QUEUE_SIZE example_imports /\
  fst (get_elapsed s1) = Returns (map record_of l1) /\
  fst (get_elapsed s2) = Returns (map record_of l2).
Proof.
  intros l1 l2 s1 s2.
  assert (H1 : 1 <= @MAX_ELAPSED_QUEUE_SIZE example_imports)
    by (simpl; lia).
  assert (H5 : Z.of_nat (List.length l1)
               <= @MAX_ELAPSED_QUEUE_SIZE example_imports)
    by (unfold l1; simpl; lia).
  assert (H6 : Z.of_nat (List.length l2)
               <= @MAX_ELAPSED_QUEUE_SIZE example_imports)
    by (unfold l2; simpl; lia).
  split; [exact H1|]. split; [reflexivity|]. split; [reflexivity|].
  split; [reflexivity|]. split; [exact H5|]. split; [exact H6|].
  pose proof (@two_drains_return_each_record_once example_imports
                example_state l1 l2 H1 eq_refl eq_refl eq_refl H5 H6) as H.
  split; [exact (proj1 H) | exact (proj1 (proj2 H))].
Defined.

Lemma logging_before_set_logger_witness :
  let cs := [Call_get_random_priority; Call_logger Info [PyStr "start"];
             Call_set_testing (PyBool true)] in
  forallb (fun c => negb (is_set_logger c)) cs = true /\
  logger_method Warning [PyStr "late"] (run cs example_state) =
  (Raises AttributeError, run cs example_state).
Proof.
  intros cs. split; [reflexivity|].
  exact (@logging_before_set_logger example_imports 42 cs Warning
           [PyStr "late"] eq_refl).
Defined.

Lemma logging_calls_arrive_in_order_witness :
  _logger example_logging_state = Some example_logger /\
  _logger_lock example_logging_state = Unlocked /\
  _logger (run (logging_calls example_messages) example_logging_state) =
    Some (mkLogger (behaviour example_logger)
            [mkSinkCall Info [PyStr "start"] Locked;
             mkSinkCall Error [PyStr "failed"; PyInt 3] Locked;
             mkSinkCall Debug [] Locked]).
Proof.
  split; [reflexivity|]. split; [reflexivity|].
  exact (proj1 (@logging_calls_arrive_in_order example_imports
                  example_messages example_logging_state example_logger
                  eq_refl eq_refl)).
Defined.

Lemma set_logger_then_log_witness :
  _logger_lock example_state = Unlocked /\
  fst (logger_error [PyStr "failed"]
         (snd (set_logger (Some example_logger) example_state))) =
  Raises (Raised "IOError").
Proof.
  split; [reflexivity|].
  exact (proj1 (proj2 (@set_logger_then_log example_imports example_logger
                         Error [PyStr "failed"] example_state eq_refl))).
Defined.

Lemma num_workers_kept_across_calls_witness :
  let cs := [Call_get_random_priority; Call_set_testing (PyBool true);
             Call_get_elapsed] in
  isinstance (PyInt 4) IntType = true /\
  forallb (fun c => negb (is_set_num_workers c)) cs = true /\
  fst (get_num_workers (run cs (snd (set_num_workers (PyInt 4) example_state))))
    = Returns (PyInt 4).
Proof.
  intros cs. split; [reflexivity|]. split; [reflexivity|].
  exact (@num_workers_kept_across_calls example_imports (PyInt 4) cs
           example_state eq_refl eq_refl).
Defined.

Lemma relations_kept_across_calls_witness :
  let cs := [Call_get_random_priority; Call_set_num_workers (PyInt 4);
             Call_get_relations_to_timestamps] in
  isinstance example_mapping DictType = true /\
  locks_free example_state /\
  forallb (fun c => negb (is_set_relations_to_timestamps c)) cs = true /\
  fst (get_relations_to_timestamps
         (run cs (snd (set_relations_to_timestamps example_mapping
                         example_state)))) = Returns example_mapping.
Proof.
  intros cs.
  assert (Hf : locks_free example_state) by (repeat split).
  split; [reflexivity|]. split; [exact Hf|]. split; [reflexivity|].
  exact (@relations_kept_across_calls example_imports example_mapping cs
           example_state eq_refl Hf eq_refl).
Defined.

Lemma testing_priorities_increase_witness :
  let s := snd (set_testing (PyBool true) example_state) in
  let cs := [Call_set_testing (PyBool false); Call_get_random_priority;
             Call_set_testing (PyBool true)] in
  locks_free s /\
  truthy (_testing s) = true /\
  truthy (_testing (run cs (snd (get_random_priority s)))) = true /\
  exists p1 p2 : Z,
    fst (get_random_priority s) = Returns p1 /\
    fst (get_random_priority (run cs (snd (get_random_priority s))))
      = Returns p2 /\
    p1 < p2.
Proof.
  intros s cs.
  assert (Hf : locks_free s) by (repeat split).
  split; [exact Hf|]. split; [reflexivity|]. split; [reflexivity|].
  exact (@testing_priorities_increase example_imports s cs Hf eq_refl
           eq_refl).
Defined.

Lemma modes_keep_apart_witness :
  truthy (_testing example_state) = false /\
  _sequence_number (step Call_get_random_priority example_state) =
  _sequence_number example_state.
Proof.
  split; [reflexivity|].
  exact (proj2 (proj2 (@modes_keep_apart example_imports
                         Call_get_random_priority example_state)) eq_refl).
Defined.

Lemma getters_change_nothing_witness :
  is_getter Call_get_relations_to_timestamps = true /\
  locks_free example_state /\
  step Call_get_relations_to_timestamps example_state = example_state.
Proof.
  assert (Hf : locks_free example_state) by (repeat split).
  split; [reflexivity|]. split; [exact Hf|].
  exact (@getters_change_nothing example_imports
           Call_get_relations_to_timestamps example_state eq_refl Hf).
Defined.

Lemma initialized_for_good_witness :
  let cs := [Call_set_testing (PyBool true); Call_get_elapsed;
             Call_set_num_workers (PyInt 4)] in
  forallb (fun c => negb (is_init c)) cs = true /\
  _bounded_semaphore
    (run cs (snd (init_caches_and_synchronization example_state))) =
  Some (mkBoundedSemaphore (PyInt 10)).
Proof.
  intros cs. split; [reflexivity|].
  pose proof (proj2 (@initialized_for_good example_imports example_state cs)
                eq_refl) as H.
  exact (proj2 (proj2 (proj2 (proj2 (proj2 (proj2 (proj2 (proj2
           (proj2 H))))))))).
Defined.
